(** * Regime pricing system: a shallow embedding and its checked properties

    The Python sources under [src/] are embedded component by component:

    - [F64]            IEEE-754 binary64, the value type of every Python
                       [float] and of every [float64] pandas Series;
    - [Pandas]         the pandas operations the sources call on such Series;
    - [JumpDetector]   [src/modules/jump_detector.py];
    - [RegimeEngine]   [src/modules/regime_engine.py];
    - [DriftEngine]    [src/modules/drift_engine.py] (noise tuning);
    - [Decision]       the sizing and verdict blocks of [src/main.py];
    - [VolatilityEngine], [PricingEngine], [Confidence]
                       [volatility_engine.py], [pricing_engine.py] and the
                       confidence lines of [main.py], over the real numbers.

    Components whose properties are decided by comparisons, NaN handling and
    exact arithmetic are modelled on binary64 itself and can be evaluated.
    Components whose properties rest on [exp], [log], [sqrt] and the normal
    distribution function are modelled in ideal real arithmetic (no rounding,
    no overflow), with NaN kept as a separate value where the code produces
    it.  Values read from the configuration file are arguments.

    A pandas Series is a list of values; the index label of an entry is its
    position (the data model requires distinct, chronologically ordered
    labels).

    The definitions come first, then the vocabulary of the statements and the
    sample inputs, then the properties, one module of facts per component. *)

From Stdlib Require Import String.
From Stdlib Require Import ZArith List Bool Lia.
From Stdlib Require Import Floats.SpecFloat.
From Stdlib Require Import Reals Lra.
Import ListNotations.

(** ** Generic list helpers *)

Definition map2 {A B C : Type} (f : A -> B -> C) (xs : list A) (ys : list B)
  : list C :=
  map (fun p => f (fst p) (snd p)) (combine xs ys).

(** ** IEEE-754 binary64

    [spec_float] is the Standard Library's specification of IEEE floats; at
    precision 53 and maximal exponent 1024 it is Python's [float] and
    numpy's [float64].  There is one NaN. *)

Module F64.

Definition float := spec_float.
Definition prec : Z := 53.
Definition emax : Z := 1024.

Definition add : float -> float -> float := SFadd prec emax.
Definition sub : float -> float -> float := SFsub prec emax.
Definition mul : float -> float -> float := SFmul prec emax.
Definition div : float -> float -> float := SFdiv prec emax.
Definition sqrt : float -> float := SFsqrt prec emax.
Definition abs : float -> float := SFabs.
(** [x == y], [x < y], [x <= y]; all three are [false] on NaN. *)
Definition eqb : float -> float -> bool := SFeqb.
Definition ltb : float -> float -> bool := SFltb.
Definition leb : float -> float -> bool := SFleb.

Definition nan : float := S754_nan.
Definition zero : float := S754_zero false.
Definition is_nan (x : float) : bool :=
  match x with S754_nan => true | _ => false end.
(** [np.isfinite] *)
Definition isfinite (x : float) : bool :=
  match x with S754_nan | S754_infinity _ => false | _ => true end.
(** A genuine binary64 value (canonical mantissa and exponent). *)
Definition valid (x : float) : bool := valid_binary prec emax x.

(** Conversion of an integer, rounded to nearest even. *)
Definition of_Z (z : Z) : float := binary_normalize prec emax z 0 false.
Definition of_nat (n : nat) : float := of_Z (Z.of_nat n).

(** Decimal literals of the sources, as the binary64 value Python reads. *)
Definition one : float := S754_finite false 4503599627370496 (-52).
Definition two : float := S754_finite false 4503599627370496 (-51).
Definition c1e_6 : float := S754_finite false 4722366482869645 (-72).
Definition c1e_5 : float := S754_finite false 5902958103587057 (-69).
Definition c0_01 : float := S754_finite false 5764607523034235 (-59).
Definition c0_015 : float := S754_finite false 8646911284551352 (-59).
Definition c0_02 : float := S754_finite false 5764607523034235 (-58).
Definition c0_04 : float := S754_finite false 5764607523034235 (-57).
Definition c0_06 : float := S754_finite false 8646911284551352 (-57).
Definition c0_05 : float := S754_finite false 7205759403792794 (-57).
Definition c0_3 : float := S754_finite false 5404319552844595 (-54).
Definition c0_5 : float := S754_finite false 4503599627370496 (-53).
Definition c0_7 : float := S754_finite false 6305039478318694 (-53).
Definition c0_8 : float := S754_finite false 7205759403792794 (-53).
Definition c3 : float := S754_finite false 6755399441055744 (-51).
Definition c10 : float := S754_finite false 5629499534213120 (-49).
Definition c1_4826 : float := S754_finite false 6677036807539497 (-52).

(** Python's builtin [max(a, b)]: [b] when [b > a], else [a]. *)
Definition py_max (a b : float) : float := if ltb a b then b else a.
(** Python's builtin [min(a, b)]: [b] when [b < a], else [a]. *)
Definition py_min (a b : float) : float := if ltb b a then b else a.

End F64.

(** ** The pandas operations the sources call

    Rolling statistics follow the window routines of pandas 2
    ([pandas/_libs/window/aggregations.pyx]): infinite entries are read as
    NaN, the mean and the variance are kept as compensated running sums that
    each new window updates by removing the entry that leaves and adding the
    entry that enters, and a window of one repeated value has exactly that
    value as its mean and 0 as its variance.  Reductions of a whole Series
    ([mean], [std]) add in index order; numpy's blocked addition can differ
    from it in the last bit from eight entries on. *)

Module Pandas.
Import F64.

(** [s.dropna()]: the entries that are not NaN, each with its index label. *)
Definition dropna (s : list float) : list (nat * float) :=
  filter (fun p => negb (is_nan (snd p))) (combine (seq 0 (length s)) s).

(** What a rolling routine is handed: infinite entries become NaN. *)
Definition prep_values (xs : list float) : list float :=
  map (fun x => if isfinite x then x else nan) xs.

(** The trailing window of at most [w] entries that ends at position [i]. *)
Definition window_at {A : Type} (w : nat) (xs : list A) (i : nat) : list A :=
  skipn (i + 1 - w) (firstn (i + 1) xs).

Definition observations (xs : list float) : list float :=
  filter (fun x => negb (is_nan x)) xs.

(** [xs.rolling(window=w, min_periods=minp)] with a statistic that is
    evaluated window by window (median, [apply]): the statistic of the
    observations of the trailing window, NaN when there are fewer than
    [minp] of them. *)
Definition rolling (stat : list float -> float) (w minp : nat)
  (xs : list float) : list float :=
  let values := prep_values xs in
  map (fun i =>
         let obs := observations (window_at w values i) in
         if length obs <? minp then nan else stat obs)
      (seq 0 (length xs)).

Fixpoint insert (x : float) (l : list float) : list float :=
  match l with
  | [] => [x]
  | y :: l' => if leb x y then x :: l else y :: insert x l'
  end.

Definition sort (l : list float) : list float := fold_right insert [] l.

(** Median: the middle order statistic, or the mean of the two middle ones. *)
Definition median (obs : list float) : float :=
  let s := sort obs in
  let n := length s in
  if Nat.even n
  then div (add (nth (n / 2) s nan) (nth (n / 2 - 1) s nan)) two
  else nth (n / 2) s nan.

(** *** Running statistics *)

Section Online.

Variable state : Type.
(** The state a first window starts from, given the entry it starts at. *)
Variable fresh : float -> state.
Variables add_value remove_value : state -> float -> state.
Variable result : state -> float.

(** Windows of [w] entries ending at the positions [idx], one after the
    other: position 0 (and every position of a window of one entry) starts
    afresh; any other window drops the entry [w] positions back, when there
    is one, and takes the entry at its own position. *)
Fixpoint online_from (w : nat) (values : list float) (st : state)
  (idx : list nat) : list float :=
  match idx with
  | [] => []
  | i :: rest =>
      let v := nth i values nan in
      let st' :=
        if (i =? 0) || (w <=? 1) then add_value (fresh v) v
        else
          let st1 :=
            if w <=? i then remove_value st (nth (i - w) values nan)
            else st in
          add_value st1 v in
      result st' :: online_from w values st' rest
  end.

Definition online (w : nat) (xs : list float) : list float :=
  if w =? 0 then map (fun _ => nan) xs
  else online_from w (prep_values xs) (fresh nan) (seq 0 (length xs)).

End Online.

Definition signbit (x : float) : bool :=
  match x with
  | S754_zero s | S754_infinity s | S754_finite s _ _ => s
  | S754_nan => false
  end.

(** The variables of [roll_mean]. *)
Record mean_state := mk_mean {
  m_nobs : nat;
  m_sum : float;
  m_neg : nat;
  m_comp_add : float;
  m_comp_remove : float;
  m_same : nat;
  m_prev : float
}.

Definition mean_fresh (first : float) : mean_state :=
  mk_mean 0 zero 0 zero zero 0 first.

(** [add_mean]: Kahan summation, and the count of equal consecutive values. *)
Definition add_mean (st : mean_state) (val : float) : mean_state :=
  if is_nan val then st
  else
    let y := sub val (m_comp_add st) in
    let t := add (m_sum st) y in
    mk_mean (m_nobs st + 1) t
      (if signbit val then m_neg st + 1 else m_neg st)
      (sub (sub t (m_sum st)) y) (m_comp_remove st)
      (if eqb val (m_prev st) then m_same st + 1 else 1) val.

Definition remove_mean (st : mean_state) (val : float) : mean_state :=
  if is_nan val then st
  else
    let y := sub (SFopp val) (m_comp_remove st) in
    let t := add (m_sum st) y in
    mk_mean (m_nobs st - 1) t
      (if signbit val then m_neg st - 1 else m_neg st)
      (m_comp_add st) (sub (sub t (m_sum st)) y)
      (m_same st) (m_prev st).

Definition calc_mean (minp : nat) (st : mean_state) : float :=
  if (minp <=? m_nobs st) && (0 <? m_nobs st) then
    let r := div (m_sum st) (of_nat (m_nobs st)) in
    if m_nobs st <=? m_same st then m_prev st
    else if (m_neg st =? 0) && ltb r zero then zero
    else if (m_neg st =? m_nobs st) && ltb zero r then zero
    else r
  else nan.

(** [xs.rolling(window=w, min_periods=minp).mean()] *)
Definition rolling_mean (w minp : nat) (xs : list float) : list float :=
  online mean_state mean_fresh add_mean remove_mean (calc_mean minp) w xs.

(** The variables of [roll_var]. *)
Record var_state := mk_var {
  v_nobs : nat;
  v_mean : float;
  v_ssqdm : float;
  v_comp_add : float;
  v_comp_remove : float;
  v_same : nat;
  v_prev : float
}.

Definition var_fresh (first : float) : var_state :=
  mk_var 0 zero zero zero zero 0 first.

(** [add_var]: Welford's update with Kahan summation. *)
Definition add_var (st : var_state) (val : float) : var_state :=
  if is_nan val then st
  else
    let nobs := v_nobs st + 1 in
    let prev_mean := sub (v_mean st) (v_comp_add st) in
    let y := sub val (v_comp_add st) in
    let t := sub y (v_mean st) in
    let mean_x := add (v_mean st) (div t (of_nat nobs)) in
    mk_var nobs mean_x
      (add (v_ssqdm st) (mul (sub val prev_mean) (sub val mean_x)))
      (sub (add t (v_mean st)) y) (v_comp_remove st)
      (if eqb val (v_prev st) then v_same st + 1 else 1) val.

Definition remove_var (st : var_state) (val : float) : var_state :=
  if is_nan val then st
  else
    let nobs := v_nobs st - 1 in
    if nobs =? 0 then
      mk_var nobs zero zero (v_comp_add st) (v_comp_remove st)
        (v_same st) (v_prev st)
    else
      let prev_mean := sub (v_mean st) (v_comp_remove st) in
      let y := sub val (v_comp_remove st) in
      let t := sub y (v_mean st) in
      let mean_x := sub (v_mean st) (div t (of_nat nobs)) in
      mk_var nobs mean_x
        (sub (v_ssqdm st) (mul (sub val prev_mean) (sub val mean_x)))
        (v_comp_add st) (sub (add t (v_mean st)) y)
        (v_same st) (v_prev st).

Definition calc_var (minp ddof : nat) (st : var_state) : float :=
  if (minp <=? v_nobs st) && (ddof <? v_nobs st) then
    if (v_nobs st =? 1) || (v_nobs st <=? v_same st) then zero
    else div (v_ssqdm st) (of_nat (v_nobs st - ddof))
  else nan.

(** [zsqrt]: the square root, 0.0 on a negative value. *)
Definition zsqrt (x : float) : float :=
  if ltb x zero then zero else sqrt x.

(** [xs.rolling(window=w, min_periods=minp).std()], with [ddof=1]. *)
Definition rolling_std (w minp : nat) (xs : list float) : list float :=
  map zsqrt
    (online var_state var_fresh add_var remove_var
       (calc_var (Nat.max minp 1) 1) w xs).

(** [xs.rolling(window=w, min_periods=minp).median()] *)
Definition rolling_median (w minp : nat) (xs : list float) : list float :=
  rolling median w minp xs.

(** *** Reductions of a Series *)

(** Sum from the first element on, [0.0] for no element. *)
Definition sum (obs : list float) : float :=
  match obs with
  | [] => zero
  | x :: rest => fold_left add rest x
  end.

Definition mean (obs : list float) : float :=
  div (sum obs) (of_nat (length obs)).

(** Sample standard deviation ([ddof=1]); NaN for fewer than two values. *)
Definition std (obs : list float) : float :=
  let n := length obs in
  if n <=? 1 then nan
  else
    let m := mean obs in
    sqrt (div (sum (map (fun x => mul (sub x m) (sub x m)) obs))
              (of_nat (n - 1))).

(** [Series.mean()], which skips NaN: NaN when nothing is left. *)
Definition nanmean (xs : list float) : float :=
  let obs := observations xs in
  if length obs =? 0 then nan else mean obs.

(** [Series.std()], which skips NaN and uses [ddof=1]. *)
Definition nanstd (xs : list float) : float := std (observations xs).

(** [flags.reindex(index, fill_value=fill)] for an index [0 .. n-1]. *)
Definition reindex (flags : list (nat * bool)) (n : nat) (fill : bool)
  : list bool :=
  map (fun p =>
         match find (fun q : nat * bool => Nat.eqb (fst q) p) flags with
         | Some q => snd q
         | None => fill
         end)
      (seq 0 n).

(** [pd.Series(x).rank(pct=True).iloc[-1]] for a window without NaN: the
    average rank of the last value among its ties, over the count. *)
Definition rank_pct_last (x : list float) : float :=
  let last := List.last x nan in
  let less := length (filter (fun y => ltb y last) x) in
  let dups := length (filter (fun y => eqb y last) x) in
  let sum_ranks := fold_left Nat.add (seq (less + 1) dups) 0 in
  div (div (of_nat sum_ranks) (of_nat dups)) (of_nat (length x)).

End Pandas.

(** ** Jump detector ([src/modules/jump_detector.py]) *)

Module JumpDetector.
Import F64 Pandas.

(** The constructor arguments of [JumpDetector]. *)
Record t := mk {
  threshold : float;
  window : nat;
  min_observations : nat
}.

(** The rolling spread: the scaled median absolute deviation when
    [use_robust], the rolling standard deviation otherwise. *)
Definition rolling_std (d : t) (use_robust : bool) (returns_clean : list float)
  : list float :=
  if use_robust then
    let median := Pandas.rolling_median (window d) 5 returns_clean in
    let rolling_mad :=
      Pandas.rolling_median (window d) 5
        (map abs (map2 sub returns_clean median)) in
    map (fun m => mul m c1_4826) rolling_mad
  else Pandas.rolling_std (window d) 5 returns_clean.

(** The standardized residuals of the cleaned returns. *)
Definition z_scores (d : t) (use_robust : bool) (returns_clean : list float)
  : list float :=
  map2 div
    (map2 sub returns_clean (rolling_mean (window d) 5 returns_clean))
    (rolling_std d use_robust returns_clean).

(** [detect_jumps].  [None] stands for the [ValueError] that pandas raises
    when [min_periods=5] exceeds the rolling window. *)
Definition detect_jumps (d : t) (returns : list float) (use_robust : bool)
  : option (list bool * list float * list float) :=
  if length returns <? min_observations d then
    Some (map (fun _ => false) returns, map (fun _ => zero) returns, returns)
  else if window d <? 5 then None
  else
    let returns_clean := dropna returns in
    let z := z_scores d use_robust (map snd returns_clean) in
    (* a comparison with NaN is already False: fillna(False) changes nothing *)
    let is_jump_clean := map (fun z => ltb (threshold d) (abs z)) z in
    let is_jump :=
      reindex (combine (map fst returns_clean) is_jump_clean)
              (length returns) false in
    let jump_returns :=
      map2 (fun (j : bool) r => if negb j then zero else r) is_jump returns in
    let diffusion_returns :=
      map2 (fun (j : bool) r => if j then zero else r) is_jump returns in
    Some (is_jump, jump_returns, diffusion_returns).

(** The dictionary returned by [estimate_jump_parameters]. *)
Record jump_params := mk_params {
  mu_j : float;
  sigma_j : float;
  lambda : float
}.

Definition estimate_jump_parameters (jump_returns : list float)
  : jump_params :=
  let jumps_only := filter (fun x => negb (eqb x zero)) jump_returns in
  if length jumps_only =? 0 then mk_params zero zero zero
  else
    let mu := nanmean jumps_only in
    let sigma := nanstd jumps_only in
    let total_days := length jump_returns in
    let n_jumps := length jumps_only in
    mk_params mu sigma (div (of_nat n_jumps) (of_nat total_days)).

End JumpDetector.

(** ** Regime engine ([src/modules/regime_engine.py]) *)

Module RegimeEngine.
Import F64 Pandas.

Record t := mk {
  vol_window : nat;
  jump_window : nat;
  high_vol_pct : float;
  low_vol_pct : float;
  jump_rate_threshold : float
}.

(** One row of the returned DataFrame. *)
Record row := mk_row {
  bull : float;
  sideways : float;
  crisis : float
}.

(** [volatility.rolling(vol_window).apply(rank of the last value)];
    [min_periods] defaults to the window.  With [vol_window = 0] every
    window is empty and passes [min_periods = 0], so the function is called
    on an empty Series and its [.iloc[-1]] raises [IndexError]: [None]. *)
Definition vol_rank (e : t) (volatility : list float) : option (list float) :=
  if (vol_window e =? 0) && negb (length volatility =? 0) then None
  else Some (rolling rank_pct_last (vol_window e) (vol_window e) volatility).

(** [is_jump.rolling(jump_window).mean()] on the flags read as 1.0 / 0.0. *)
Definition jump_rate (e : t) (is_jump : list bool) : list float :=
  rolling_mean (jump_window e) (jump_window e)
    (map (fun b : bool => if b then one else zero) is_jump).

(** The body of the loop for one timestamp. *)
Definition classify (e : t) (v j : float) : row :=
  if negb (isfinite v) || negb (isfinite j) then mk_row zero one zero
  else if ltb (high_vol_pct e) v || ltb (jump_rate_threshold e) j
  then mk_row zero c0_3 c0_7
  else if ltb v (low_vol_pct e) && ltb j (div (jump_rate_threshold e) two)
  then mk_row c0_7 c0_3 zero
  else mk_row zero one zero.

(** The loop of [detect_regimes]; [None] is the [KeyError] of
    [jump_rate.loc[t]] when [is_jump] has no entry for a timestamp of
    [volatility]. *)
Fixpoint rows_from (e : t) (ranks : list float) (rates : list float)
  : option (list row) :=
  match ranks with
  | [] => Some []
  | v :: ranks' =>
      match rates with
      | [] => None
      | j :: rates' =>
          option_map (cons (classify e v j)) (rows_from e ranks' rates')
      end
  end.

(** [detect_regimes]; [None] is an exception, the [IndexError] of the
    rolling rank or the [KeyError] of the loop. *)
Definition detect_regimes (e : t) (volatility : list float)
  (is_jump : list bool) : option (list row) :=
  match vol_rank e volatility with
  | None => None
  | Some ranks => rows_from e ranks (jump_rate e is_jump)
  end.

End RegimeEngine.

(** ** Outcomes of calls that may raise *)

Inductive exc := ValueError (msg : string).

Inductive outcome (A : Type) :=
| Ok (a : A)
| Raise (e : exc).
Arguments Ok {A} a.
Arguments Raise {A} e.

(** ** Drift engine: regime-dependent noise ([src/modules/drift_engine.py]) *)

Module DriftEngine.
Import F64.

Record t := mk {
  initial_drift : float;
  state_noise_factor : float;
  min_obs_variance : float;
  adaptive : bool
}.

(** The fields of the 1-dimensional [KalmanFilter] the engine owns. *)
Record kalman := mk_kf {
  kf_x : float;
  kf_P : float;
  kf_Q : float;
  kf_R : float
}.

Definition set_Q (kf : kalman) (q : float) : kalman :=
  mk_kf (kf_x kf) (kf_P kf) q (kf_R kf).
Definition set_R (kf : kalman) (r : float) : kalman :=
  mk_kf (kf_x kf) (kf_P kf) (kf_Q kf) r.

(** [update_regime_parameters]: the filter after the call.  No branch of the
    source raises; the last [else] gives an unknown label the multiplier 1.0. *)
Definition update_regime_parameters (self : t) (kf : kalman)
  (regime : string) (volatility : float) : outcome kalman :=
  let q_mult :=
    if String.eqb regime "bull" then one
    else if String.eqb regime "sideways" then c3
    else if String.eqb regime "crisis" then c10
    else one in
  let kf := set_Q kf (mul (state_noise_factor self) q_mult) in
  if adaptive self then
    let r_val := py_max (mul volatility volatility) (min_obs_variance self) in
    let r_val := if String.eqb regime "crisis" then mul r_val two else r_val in
    Ok (set_R kf r_val)
  else Ok kf.

End DriftEngine.

(** ** Sizing and verdict of the decision stage ([src/main.py]) *)

Module Decision.
Import F64.

Inductive verdict := BUY | SELL | REFUSE.

(** The entries of [config["kelly"]]. *)
Record kelly_cfg := mk_kelly {
  fraction : float;
  max_position : float;
  min_position : float;
  jump_risk_multiplier : float;
  uncertainty_scale : float;
  bull_max_position : float;
  sideways_max_position : float;
  crisis_max_position : float
}.

(** The block under Kelly sizing: the signed, capped position. *)
Definition position_size (k : kelly_cfg)
  (mispricing confidence sigma_t uncertainty_t : float)
  (bull_p sideways_p crisis_p : float) : float :=
  let direction :=
    if ltb mispricing zero then one
    else if ltb zero mispricing then SFopp one
    else zero in
  let risk := mul sigma_t (jump_risk_multiplier k) in
  let base_kelly := div confidence (py_max risk c1e_6) in
  let penalty := div one (add one (mul (uncertainty_scale k) uncertainty_t)) in
  let kelly_fraction := mul (mul (fraction k) base_kelly) penalty in
  let max_cap :=
    add (add (mul (bull_max_position k) bull_p)
             (mul (sideways_max_position k) sideways_p))
        (mul (crisis_max_position k) crisis_p) in
  let position := mul direction (py_min kelly_fraction max_cap) in
  py_max (SFopp (max_position k)) (py_min (max_position k) position).

(** The block under FINAL VERDICT, as a function of the values it reads. *)
Definition final_verdict (mispricing confidence position crisis_p : float)
  (min_conf min_pos : float) (allow_crisis : bool) : verdict :=
  if negb (eqb mispricing zero
           || leb confidence min_conf
           || ltb (abs position) min_pos
           || (ltb c0_5 crisis_p && negb allow_crisis))
  then
    if ltb mispricing zero then BUY
    else if ltb zero mispricing then SELL
    else REFUSE
  else REFUSE.

End Decision.

(** ** Volatility engine ([src/modules/volatility_engine.py])

    Values are real numbers or NaN ([None]); arithmetic is exact. *)

Module VolatilityEngine.
Local Open Scope R_scope.

Definition num := option R.

Definition is_obs (x : num) : bool :=
  match x with Some _ => true | None => false end.

Definition nadd (x y : num) : num :=
  match x, y with Some a, Some b => Some (a + b) | _, _ => None end.
Definition nmul (x y : num) : num :=
  match x, y with Some a, Some b => Some (a * b) | _, _ => None end.
Definition ndiv_by (c : R) (x : num) : num := option_map (fun a => a / c) x.

(** [np.sqrt]: NaN below zero. *)
Definition np_sqrt (x : num) : num :=
  match x with
  | Some a => if Rlt_dec a 0 then None else Some (sqrt a)
  | None => None
  end.

(** [s.clip(lower=lo)] on one entry: NaN stays, a NaN bound clips nothing. *)
Definition clip_lower (lo : num) (x : num) : num :=
  match x, lo with
  | Some a, Some l => Some (if Rlt_dec a l then l else a)
  | _, _ => x
  end.

(** The running state of pandas' exponentially weighted mean. *)
Record ewm_state := mk_ewm {
  weighted : num;
  old_wt : R;
  nobs : nat
}.

(** One step of [ewm(alpha, adjust=False, ignore_na=False).mean()]. *)
Definition ewm_step (alpha : R) (st : ewm_state) (cur : num) : ewm_state :=
  let nobs' := (nobs st + (if is_obs cur then 1 else 0))%nat in
  match weighted st with
  | Some w =>
      let old := old_wt st * (1 - alpha) in
      match cur with
      | Some c =>
          let w' :=
            if Req_dec_T w c then w
            else (old * w + alpha * c) / (old + alpha) in
          mk_ewm (Some w') 1 nobs'
      | None => mk_ewm (Some w) old nobs'
      end
  | None => mk_ewm cur (old_wt st) nobs'
  end.

Fixpoint ewm_run (alpha : R) (minp : nat) (st : ewm_state) (xs : list num)
  : list num :=
  match xs with
  | [] => []
  | cur :: rest =>
      let st' := ewm_step alpha st cur in
      (if (minp <=? nobs st')%nat then weighted st' else None)
        :: ewm_run alpha minp st' rest
  end.

(** [xs.ewm(alpha=alpha, min_periods=min_periods, adjust=False).mean()] for
    a valid [alpha]; pandas raises the minimum of periods to 1. *)
Definition ewm_mean (alpha : R) (min_periods : nat) (xs : list num)
  : list num :=
  ewm_run alpha (Nat.max min_periods 1) (mk_ewm None 1 0) xs.

Record t := mk {
  bull_lambda : R;
  crisis_lambda : R;
  garch_p : nat;
  garch_q : nat;
  min_variance : R
}.

(** [ewma_volatility]; pandas refuses an [alpha] outside (0, 1].  The test
    is read over exact reals here: it is the program's for every decay from
    0 on; on binary64 [1 - lambda_decay] rounds, so that a negative decay
    of magnitude up to 2^-53 is accepted as well
    ([VolatilityEngine64.ewma_volatility] has the binary64 test). *)
Definition ewma_volatility (self : t) (returns : list num) (lambda_decay : R)
  (min_periods : nat) : outcome (list num) :=
  let returns_squared := map (option_map (fun r => r ^ 2)) returns in
  let alpha := 1 - lambda_decay in
  if Rlt_dec 0 alpha then
    if Rle_dec alpha 1 then
      let variance := ewm_mean alpha min_periods returns_squared in
      let variance := map (clip_lower (Some (min_variance self))) variance in
      Ok (map np_sqrt variance)
    else Raise (ValueError "alpha must satisfy: 0 < alpha <= 1")
  else Raise (ValueError "alpha must satisfy: 0 < alpha <= 1").

(** [returns * 100], the percentage returns handed to the GARCH routine. *)
Definition returns_pct (returns : list num) : list num :=
  map (option_map (fun r => r * 100)) returns.

Section Garch.

(** The external GARCH routine ([arch_model(...).fit(...)]): what the [try]
    block obtains as [result.conditional_volatility] from the percentage
    returns, or [None] when anything in the block raises. *)
Variable arch_fit : list num -> nat -> nat -> option (list num).

Definition garch_volatility (self : t) (returns : list num) (p q : nat)
  : outcome (list num) :=
  match arch_fit (returns_pct returns) p q with
  | Some cond_vol =>
      let cond_vol := map (ndiv_by 100) cond_vol in
      Ok (map (clip_lower (np_sqrt (Some (min_variance self)))) cond_vol)
  | None => ewma_volatility self returns (9 / 10) 20
  end.

(** [estimate_regime_volatility]; its optional [regime_probabilities]
    argument is not read by the source. *)
Definition estimate_regime_volatility (self : t) (returns : list num)
  (regime : string) : outcome (list num) :=
  if String.eqb regime "bull" then
    ewma_volatility self returns (bull_lambda self) 20
  else if String.eqb regime "sideways" then
    garch_volatility self returns (garch_p self) (garch_q self)
  else if String.eqb regime "crisis" then
    ewma_volatility self returns (crisis_lambda self) 20
  else Raise (ValueError ("Unknown regime: " ++ regime)).

(** One row of the regime-probability DataFrame. *)
Record probs := mk_probs {
  p_bull : num;
  p_sideways : num;
  p_crisis : num
}.

(** A column of a frame built on an index of [n] labels: NaN off the index. *)
Definition column (n : nat) (s : list num) (i : nat) : num :=
  if (i <? n)%nat then nth i s None else None.

Definition compute_effective_volatility (self : t) (returns : list num)
  (regime_probabilities : list probs) : outcome (list num) :=
  match estimate_regime_volatility self returns "bull" with
  | Raise e => Raise e
  | Ok vol_bull =>
  match estimate_regime_volatility self returns "sideways" with
  | Raise e => Raise e
  | Ok vol_sideways =>
  match estimate_regime_volatility self returns "crisis" with
  | Raise e => Raise e
  | Ok vol_crisis =>
      let n := length returns in
      let prob (f : probs -> num) (i : nat) : num :=
        match nth_error regime_probabilities i with
        | Some row => f row
        | None => None
        end in
      Ok (map (fun i =>
                 nadd (nadd (nmul (column n vol_bull i) (prob p_bull i))
                            (nmul (column n vol_sideways i)
                                  (prob p_sideways i)))
                      (nmul (column n vol_crisis i) (prob p_crisis i)))
              (seq 0 (Nat.max n (length regime_probabilities))))
  end end end.

End Garch.

End VolatilityEngine.

(** ** Pricing engine ([src/modules/pricing_engine.py])

    Real arithmetic; the model is meant on the inputs where every Python
    operation is defined (non-zero strike and expiry, positive [S / K]). *)

Module PricingEngine.
Local Open Scope R_scope.

(** The standard normal density and distribution function
    ([scipy.stats.norm.cdf]). *)
Definition gauss_pdf (x : R) : R := exp (- (x * x) / 2) / sqrt (2 * PI).

Lemma gauss_pdf_continuity : continuity gauss_pdf.
Proof.
  unfold gauss_pdf. intro x.
  apply derivable_continuous_pt.
  unfold Rdiv. reg.
Qed.

Lemma gauss_pdf_integrable (a b : R) : Riemann_integrable gauss_pdf a b.
Proof.
  destruct (Rle_dec a b) as [Hab|Hab].
  - apply continuity_implies_RiemannInt; [exact Hab|].
    intros x _. apply gauss_pdf_continuity.
  - apply RiemannInt_P1, continuity_implies_RiemannInt; [lra|].
    intros x _. apply gauss_pdf_continuity.
Qed.

Definition norm_cdf (x : R) : R :=
  1 / 2 + RiemannInt (gauss_pdf_integrable 0 x).

Definition black_scholes_call (S K T r sigma : R) : R :=
  if Rle_dec T 0 then Rmax (S - K) 0
  else if Rle_dec sigma 0 then Rmax (S - K) 0
  else
    let d1 :=
      (ln (S / K) + (r + (1 / 2) * sigma ^ 2) * T) / (sigma * sqrt T) in
    let d2 := d1 - sigma * sqrt T in
    S * norm_cdf d1 - K * exp (- r * T) * norm_cdf d2.

(** The body of the loop of [merton_call] for one [k]. *)
Definition merton_term (S K T r sigma lam mu_j sigma_j : R) (k : nat) : R :=
  let poisson_weight :=
    exp (- lam * T) * (lam * T) ^ k / INR (fact k) in
  let sigma_k := sqrt (sigma ^ 2 + (INR k * sigma_j ^ 2) / T) in
  let r_k :=
    r - lam * (exp (mu_j + (1 / 2) * sigma_j ^ 2) - 1) + (INR k * mu_j) / T in
  poisson_weight * black_scholes_call S K T r_k sigma_k.

(** [merton_call]: [price] accumulated over [k = 0 .. n_terms - 1]. *)
Definition merton_call (S K T r sigma lam mu_j sigma_j : R) (n_terms : nat)
  : R :=
  fold_left
    (fun price k => price + merton_term S K T r sigma lam mu_j sigma_j k)
    (seq 0 n_terms) 0.

End PricingEngine.

(** ** Bias and confidence ([src/main.py]) *)

Module Confidence.
Local Open Scope R_scope.

Definition sigmoid (x k : R) : R := 1 / (1 + exp (- k * (x - 1 / 2))).

(** [raw_bias = min(1.0, abs(mispricing) / threshold)] *)
Definition raw_bias (threshold mispricing : R) : R :=
  Rmin 1 (Rabs mispricing / threshold).

(** [confidence = sigmoid(raw_bias)], with the default steepness 5.0. *)
Definition confidence (threshold mispricing : R) : R :=
  sigmoid (raw_bias threshold mispricing) 5.

End Confidence.

(** ** Mispricing engine ([src/modules/mispricing_engine.py]) *)

Module MispricingEngine.
Import F64 Pandas.

Record t := mk {
  ema_alpha : float;
  min_signal_strength : float
}.

(** [a op b] on two Series with the indexes [0 .. len-1]: the result has
    the union of the labels, NaN operands where one side has no entry. *)
Definition aligned (op : float -> float -> float) (xs ys : list float)
  : list float :=
  map (fun i => op (nth i xs nan) (nth i ys nan))
      (seq 0 (Nat.max (length xs) (length ys))).

(** The variables of pandas' [ewm] loop. *)
Record ewm_state := mk_ewm {
  weighted : float;
  old_wt : float;
  nobs : nat
}.

(** One round of the loop with [adjust=True], [ignore_na=False]. *)
Definition ewm_step (old_wt_factor new_wt : float) (st : ewm_state)
  (cur : float) : ewm_state :=
  let is_observation := negb (is_nan cur) in
  let nobs' := nobs st + (if is_observation then 1 else 0) in
  if negb (is_nan (weighted st)) then
    let old := mul (old_wt st) old_wt_factor in
    if is_observation then
      let w :=
        if negb (eqb (weighted st) cur)
        then div (add (mul old (weighted st)) (mul new_wt cur))
                 (add old new_wt)
        else weighted st in
      mk_ewm w (add old new_wt) nobs'
    else mk_ewm (weighted st) old nobs'
  else if is_observation then mk_ewm cur (old_wt st) nobs'
  else mk_ewm (weighted st) (old_wt st) nobs'.

Fixpoint ewm_run (old_wt_factor new_wt : float) (minp : nat)
  (st : ewm_state) (vals : list float) : list float :=
  match vals with
  | [] => []
  | cur :: rest =>
      let st' := ewm_step old_wt_factor new_wt st cur in
      (if minp <=? nobs st' then weighted st' else nan)
        :: ewm_run old_wt_factor new_wt minp st' rest
  end.

(** [xs.ewm(alpha=alpha).mean()]: the center of mass is computed from
    [alpha] and the loop recomputes its own [alpha] from it; infinite
    entries are read as NaN; [min_periods=0] counts as 1. *)
Definition ewm_mean (alpha : float) (xs : list float)
  : outcome (list float) :=
  if leb alpha zero || ltb one alpha
  then Raise (ValueError "alpha must satisfy: 0 < alpha <= 1")
  else
    let com := div (sub one alpha) alpha in
    let alpha' := div one (add one com) in
    let old_wt_factor := sub one alpha' in
    match prep_values xs with
    | [] => Ok []
    | first :: rest =>
        let st :=
          mk_ewm first one (if negb (is_nan first) then 1 else 0) in
        Ok ((if 1 <=? nobs st then first else nan)
              :: ewm_run old_wt_factor one 1 st rest)
    end.

(** [smoothed[np.abs(smoothed) < min_signal_strength] = 0.0] for one
    entry. *)
Definition dead_zone (self : t) (x : float) : float :=
  if ltb (abs x) (min_signal_strength self) then zero else x.

Definition compute_mispricing (self : t) (market_price model_price : list float)
  : outcome (list float) :=
  let raw := aligned div (aligned sub market_price model_price) model_price in
  match ewm_mean (ema_alpha self) raw with
  | Raise e => Raise e
  | Ok smoothed => Ok (map (dead_zone self) smoothed)
  end.

End MispricingEngine.

(** ** Volatility engine on binary64 ([src/modules/volatility_engine.py])

    The methods of the engine on Python's floats, rounding included: what
    the exact arithmetic of [VolatilityEngine] leaves out. *)

Module VolatilityEngine64.
Import F64 Pandas.

(** The literals [100] and [0.90] of the sources. *)
Definition c100 : float := S754_finite false 7036874417766400 (-46).
Definition c0_9 : float := S754_finite false 8106479329266893 (-53).

Record t := mk {
  bull_lambda : float;
  crisis_lambda : float;
  garch_p : nat;
  garch_q : nat;
  min_variance : float
}.

(** The variables of pandas' [ewm] loop. *)
Record ewm_state := mk_ewm {
  weighted : float;
  old_wt : float;
  nobs : nat
}.

(** One round of the loop with [adjust=False], [ignore_na=False]. *)
Definition ewm_step (old_wt_factor new_wt : float) (st : ewm_state)
  (cur : float) : ewm_state :=
  let is_observation := negb (is_nan cur) in
  let nobs' := nobs st + (if is_observation then 1 else 0) in
  if negb (is_nan (weighted st)) then
    let old := mul (old_wt st) old_wt_factor in
    if is_observation then
      let w :=
        if negb (eqb (weighted st) cur)
        then div (add (mul old (weighted st)) (mul new_wt cur))
                 (add old new_wt)
        else weighted st in
      mk_ewm w one nobs'
    else mk_ewm (weighted st) old nobs'
  else if is_observation then mk_ewm cur (old_wt st) nobs'
  else mk_ewm (weighted st) (old_wt st) nobs'.

Fixpoint ewm_run (old_wt_factor new_wt : float) (minp : nat)
  (st : ewm_state) (vals : list float) : list float :=
  match vals with
  | [] => []
  | cur :: rest =>
      let st' := ewm_step old_wt_factor new_wt st cur in
      (if minp <=? nobs st' then weighted st' else nan)
        :: ewm_run old_wt_factor new_wt minp st' rest
  end.

(** [xs.ewm(alpha=alpha, min_periods=min_periods, adjust=False).mean()]:
    pandas tests [alpha], computes the center of mass from it and lets the
    loop recompute its own [alpha]; infinite entries are read as NaN and
    [min_periods] counts as 1 at least. *)
Definition ewm_mean (alpha : float) (min_periods : nat) (xs : list float)
  : outcome (list float) :=
  if leb alpha zero || ltb one alpha
  then Raise (ValueError "alpha must satisfy: 0 < alpha <= 1")
  else
    let com := div (sub one alpha) alpha in
    let alpha' := div one (add one com) in
    let old_wt_factor := sub one alpha' in
    let minp := Nat.max min_periods 1 in
    match prep_values xs with
    | [] => Ok []
    | first :: rest =>
        let st :=
          mk_ewm first one (if negb (is_nan first) then 1 else 0) in
        Ok ((if minp <=? nobs st then first else nan)
              :: ewm_run old_wt_factor alpha' minp st rest)
    end.

(** [s.clip(lower=lower)] for one entry: NaN entries stay, a NaN bound is no
    bound. *)
Definition clip_lower (lower v : float) : float :=
  if is_nan lower then v
  else if is_nan v || leb lower v then v
  else lower.

Definition ewma_volatility (self : t) (returns : list float)
  (lambda_decay : float) (min_periods : nat) : outcome (list float) :=
  let returns_squared := map (fun r => mul r r) returns in
  match ewm_mean (sub one lambda_decay) min_periods returns_squared with
  | Raise e => Raise e
  | Ok variance =>
      let variance := map (clip_lower (min_variance self)) variance in
      Ok (map sqrt variance)
  end.

Section Garch.

(** The conditional volatility of the fitted model, [None] when anything in
    the [try] block raises. *)
Variable arch_fit : list float -> nat -> nat -> option (list float).

Definition garch_volatility (self : t) (returns : list float) (p q : nat)
  : outcome (list float) :=
  let returns_pct := map (fun r => mul r c100) returns in
  match arch_fit returns_pct p q with
  | Some cond_vol =>
      let cond_vol := map (fun v => div v c100) cond_vol in
      Ok (map (clip_lower (sqrt (min_variance self))) cond_vol)
  | None => ewma_volatility self returns c0_9 20
  end.

Definition estimate_regime_volatility (self : t) (returns : list float)
  (regime : string) : outcome (list float) :=
  if String.eqb regime "bull"
  then ewma_volatility self returns (bull_lambda self) 20
  else if String.eqb regime "sideways"
  then garch_volatility self returns (garch_p self) (garch_q self)
  else if String.eqb regime "crisis"
  then ewma_volatility self returns (crisis_lambda self) 20
  else Raise (ValueError "Unknown regime").

(** A column of a frame built on an index of [n] labels: NaN off the index. *)
Definition column (n : nat) (s : list float) (i : nat) : float :=
  if i <? n then nth i s nan else nan.

(** [compute_effective_volatility] on the rows of a regime frame. *)
Definition compute_effective_volatility (self : t) (returns : list float)
  (regime_probabilities : list RegimeEngine.row) : outcome (list float) :=
  match estimate_regime_volatility self returns "bull" with
  | Raise e => Raise e
  | Ok vol_bull =>
  match estimate_regime_volatility self returns "sideways" with
  | Raise e => Raise e
  | Ok vol_sideways =>
  match estimate_regime_volatility self returns "crisis" with
  | Raise e => Raise e
  | Ok vol_crisis =>
      let n := length returns in
      let prob (f : RegimeEngine.row -> float) (i : nat) : float :=
        match nth_error regime_probabilities i with
        | Some row => f row
        | None => nan
        end in
      Ok (map (fun i =>
                 add (add (mul (column n vol_bull i)
                               (prob RegimeEngine.bull i))
                          (mul (column n vol_sideways i)
                               (prob RegimeEngine.sideways i)))
                     (mul (column n vol_crisis i)
                          (prob RegimeEngine.crisis i)))
              (seq 0 (Nat.max n (length regime_probabilities))))
  end end end.

End Garch.

End VolatilityEngine64.

(** ** Drift engine: the filter ([src/modules/drift_engine.py])

    [estimate_drift] and the 1-dimensional [filterpy] Kalman filter it
    drives, with [F = H = 1].  Values are real numbers or NaN, as for the
    volatility engine; arithmetic is exact. *)

Module DriftEstimation.
Import VolatilityEngine.
Local Open Scope R_scope.

Inductive error :=
| IndexError   (* [.iloc[-1]] on an empty Series *)
| LinAlgError. (* [inv] of a singular matrix *)

Inductive result (A : Type) :=
| Returns (a : A)
| Raises (e : error).
Arguments Returns {A} a.
Arguments Raises {A} e.

Record t := mk {
  initial_drift : R;
  state_noise_factor : R;
  min_obs_variance : R;
  adaptive : bool
}.

Record kalman := mk_kf {
  kf_x : num;
  kf_P : num;
  kf_Q : num;
  kf_R : num
}.

(** A new [KalmanFilter(dim_x=1, dim_z=1)]: x = 0, P = Q = R = 1. *)
Definition new_filter : kalman := mk_kf (Some 0) (Some 1) (Some 1) (Some 1).

Definition nsub (x y : num) : num :=
  match x, y with Some a, Some b => Some (a - b) | _, _ => None end.

(** Python's builtin [max(a, b)]: [b] when [b > a], else [a]; a NaN first
    argument is kept. *)
Definition py_max (a b : num) : num :=
  match a, b with
  | Some x, Some y => if Rlt_dec x y then b else a
  | _, _ => a
  end.

Definition set_Q (kf : kalman) (q : num) : kalman :=
  mk_kf (kf_x kf) (kf_P kf) q (kf_R kf).
Definition set_R (kf : kalman) (r : num) : kalman :=
  mk_kf (kf_x kf) (kf_P kf) (kf_Q kf) r.

Definition update_regime_parameters (self : t) (kf : kalman)
  (regime : string) (volatility : num) : kalman :=
  let q_mult :=
    if String.eqb regime "bull" then 1
    else if String.eqb regime "sideways" then 3
    else if String.eqb regime "crisis" then 10
    else 1 in
  let kf := set_Q kf (Some (state_noise_factor self * q_mult)) in
  if adaptive self then
    let r_val :=
      py_max (nmul volatility volatility) (Some (min_obs_variance self)) in
    let r_val :=
      if String.eqb regime "crisis" then nmul r_val (Some 2) else r_val in
    set_R kf r_val
  else kf.

(** [KalmanFilter.predict()]: x = F x, P = alpha^2 (F P F') + Q. *)
Definition predict (kf : kalman) : kalman :=
  mk_kf (nmul (Some 1) (kf_x kf))
        (nadd (nmul (Some 1) (nmul (nmul (Some 1) (kf_P kf)) (Some 1)))
              (kf_Q kf))
        (kf_Q kf) (kf_R kf).

(** [numpy.linalg.inv] of a 1 x 1 matrix. *)
Definition inv (S : num) : result num :=
  match S with
  | Some s => if Req_dec_T s 0 then Raises LinAlgError else Returns (Some (/ s))
  | None => Returns None
  end.

(** [KalmanFilter.update(z)] *)
Definition update (kf : kalman) (z : num) : result kalman :=
  let y := nsub z (nmul (Some 1) (kf_x kf)) in
  let PHT := nmul (kf_P kf) (Some 1) in
  let S := nadd (nmul (Some 1) PHT) (kf_R kf) in
  match inv S with
  | Raises e => Raises e
  | Returns SI =>
      let K := nmul PHT SI in
      let x := nadd (kf_x kf) (nmul K y) in
      let I_KH := nsub (Some 1) (nmul K (Some 1)) in
      let P :=
        nadd (nmul (nmul I_KH (kf_P kf)) I_KH)
             (nmul (nmul K (kf_R kf)) K) in
      Returns (mk_kf x P (kf_Q kf) (kf_R kf))
  end.

(** The entries that are numbers. *)
Fixpoint observations (xs : list num) : list R :=
  match xs with
  | [] => []
  | Some x :: rest => x :: observations rest
  | None :: rest => observations rest
  end.

Definition sum (xs : list R) : R := fold_right Rplus 0 xs.
Definition mean (xs : list R) : R := sum xs / INR (length xs).

(** [Series.var()] ([ddof=1]): NaN for fewer than two values. *)
Definition var (xs : list R) : num :=
  if (length xs <=? 1)%nat then None
  else Some (sum (map (fun x => (x - mean xs) ^ 2) xs)
             / INR (length xs - 1)).

(** [np.nanmean]: NaN when no entry is a number. *)
Definition nanmean (xs : list num) : num :=
  let obs := observations xs in
  if (length obs =? 0)%nat then None else Some (mean obs).

Section Drift.

(** [Series.idxmax] on a row of the regime frame: the label of its largest
    entry. *)
Variable idxmax : probs -> string.

Definition regime_at (regime_probabilities : option (list probs)) (idx : nat)
  : string :=
  match regime_probabilities with
  | Some rows =>
      match nth_error rows idx with
      | Some row => idxmax row
      | None => "sideways"
      end
  | None => "sideways"
  end.

(** The volatility used at a timestamp: the entry when it is a number, the
    mean of the numbers of the series otherwise, and
    [sqrt(min_obs_variance)] when that is NaN or not positive. *)
Definition volatility_at (self : t) (volatility : list num) (idx : nat)
  : num :=
  let vol :=
    match nth_error volatility idx with
    | Some (Some v) => Some v
    | _ => nanmean volatility
    end in
  match vol with
  | Some v =>
      if Rle_dec v 0 then np_sqrt (Some (min_obs_variance self)) else vol
  | None => np_sqrt (Some (min_obs_variance self))
  end.

(** The body of the loop for one timestamp. *)
Definition step (self : t) (volatility : list num)
  (regime_probabilities : option (list probs)) (kf : kalman) (idx : nat)
  (ret : num) : result kalman :=
  let regime := regime_at regime_probabilities idx in
  let vol := volatility_at self volatility idx in
  let kf := update_regime_parameters self kf regime vol in
  let kf := predict kf in
  if is_obs ret then update kf ret else Returns kf.

(** The loop from timestamp [idx] on: the drift and uncertainty values
    appended, and the filter it leaves. *)
Fixpoint run (self : t) (volatility : list num)
  (regime_probabilities : option (list probs)) (kf : kalman) (idx : nat)
  (returns : list num) : result (list num * list num * kalman) :=
  match returns with
  | [] => Returns ([], [], kf)
  | ret :: rest =>
      match step self volatility regime_probabilities kf idx ret with
      | Raises e => Raises e
      | Returns kf' =>
          match run self volatility regime_probabilities kf' (S idx) rest with
          | Raises e => Raises e
          | Returns (drift_vals, uncertainty_vals, kf'') =>
              Returns (kf_x kf' :: drift_vals, kf_P kf' :: uncertainty_vals,
                       kf'')
          end
      end
  end.

(** [estimate_drift] on the engine whose filter is [kf]: the two series and
    the filter after the call.  The line that logs
    [drift.dropna().iloc[-1]] raises when no drift value is a number. *)
Definition estimate_drift (self : t) (kf : kalman) (returns : list num)
  (volatility : list num) (regime_probabilities : option (list probs))
  : result (list num * list num * kalman) :=
  let warmup := firstn 20 (observations returns) in
  let '(mu0, P0) :=
    if (0 <? length warmup)%nat
    then (Some (mean warmup),
          py_max (var warmup) (Some (min_obs_variance self)))
    else (Some (initial_drift self), Some (1 / 10000)) in
  let kf := mk_kf mu0 P0 (kf_Q kf) (kf_R kf) in
  match run self volatility regime_probabilities kf 0 returns with
  | Raises e => Raises e
  | Returns (drift, uncertainty, kf') =>
      match observations drift with
      | [] => Raises IndexError
      | _ :: _ => Returns (drift, uncertainty, kf')
      end
  end.

End Drift.

End DriftEstimation.

(** * Specification vocabulary

    The predicates in which the properties below are stated, and the sample
    inputs they are tried on. *)

Module RegimeEngineSpec.
Import F64 RegimeEngine.

(** The three triples the loop can write. *)
Definition pure_sideways : row := mk_row zero one zero.
Definition crisis_leaning : row := mk_row zero c0_3 c0_7.
Definition bull_leaning : row := mk_row c0_7 c0_3 zero.

(** Non-negative entries that add up to exactly 1.0 in binary64. *)
Definition probability_triple (r : row) : Prop :=
  leb zero (bull r) = true /\
  leb zero (sideways r) = true /\
  leb zero (crisis r) = true /\
  eqb (add (add (bull r) (sideways r)) (crisis r)) one = true.

End RegimeEngineSpec.

Module DecisionSpec.
Import F64 Decision.

(** The four gates of the verdict, as the specification words them. *)
Definition gates_hold (mispricing confidence position crisis_p : float)
  (min_conf min_pos : float) (allow_crisis : bool) : Prop :=
  eqb mispricing zero = false /\
  ltb min_conf confidence = true /\
  leb min_pos (abs position) = true /\
  (leb crisis_p c0_5 = true \/ allow_crisis = true).

End DecisionSpec.

Module VolatilityEngineSpec.
Import VolatilityEngine.
Local Open Scope R_scope.

(** Observations (non-NaN entries) among the entries up to position [t]. *)
Definition seen (xs : list num) (t : nat) : nat :=
  length (filter is_obs (firstn (S t) xs)).

(** An entry that is a number, at or above the floor and positive. *)
Definition floored (self : t) (x : num) : Prop :=
  exists v, x = Some v /\ sqrt (min_variance self) <= v /\ 0 < v.

(** Once an observation has been seen the running mean is a number. *)
Definition warmed (st : ewm_state) : Prop :=
  (1 <= nobs st)%nat -> is_obs (weighted st) = true.

(** The engine with the default parameters of the source. *)
Definition default_engine : t :=
  mk (94 / 100) (85 / 100) 1 1 (1 / 1000000).

(** An external routine that always fails to fit. *)
Definition failing_fit (_ : list num) (_ _ : nat) : option (list num) := None.

End VolatilityEngineSpec.

Module RegimeLabelSpec.

Definition known_regime (regime : string) : Prop :=
  regime = "bull"%string \/ regime = "sideways"%string \/
  regime = "crisis"%string.

End RegimeLabelSpec.

Module Samples.
Import F64.

(** The default detector: threshold 3.0, window 20, 30 observations. *)
Definition detector : JumpDetector.t := JumpDetector.mk c3 20 30.

(** Thirty returns: twenty-nine times 0.0, then 1.0. *)
Definition quiet_then_spike : list float := repeat zero 29 ++ [one].

(** A regime engine with windows of 4 and 2 timestamps and the default
    thresholds 0.8, 0.3 and 0.05. *)
Definition regime_engine : RegimeEngine.t :=
  RegimeEngine.mk 4 2 c0_8 c0_3 c0_05.

Definition drift_engine : DriftEngine.t := DriftEngine.mk zero c1e_5 c1e_6 true.
Definition fresh_filter : DriftEngine.kalman :=
  DriftEngine.mk_kf zero one zero one.

End Samples.

(** The recursion in the docstring of [ewma_volatility]:
    variance_t = lambda * variance_(t-1) + (1 - lambda) * r_t^2, started at
    the first squared return. *)
Module EwmaFormula.
Local Open Scope R_scope.

Fixpoint recursion (lambda_decay prev : R) (xs : list R) : list R :=
  match xs with
  | [] => []
  | x :: rest =>
      let v := lambda_decay * prev + (1 - lambda_decay) * x in
      v :: recursion lambda_decay v rest
  end.

Definition variance (lambda_decay : R) (returns : list R) : list R :=
  match map (fun r => r ^ 2) returns with
  | [] => []
  | x :: rest => x :: recursion lambda_decay x rest
  end.


End EwmaFormula.

Module VolatilityEngine64Spec.
Import F64 VolatilityEngine64.

Definition c1e_4 : float := S754_finite false 7378697629483821 (-66).
Definition c0_94 : float := S754_finite false 8466767299456532 (-53).
Definition c0_85 : float := S754_finite false 7656119366529843 (-53).
Definition c0_1 : float := S754_finite false 7205759403792794 (-56).

(** The default decays with the variance floor 1e-4. *)
Definition coarse_engine : t := mk c0_94 c0_85 1 1 c1e_4.

(** A GARCH routine that always raises. *)
Definition failing_fit (returns_pct : list float) (p q : nat)
  : option (list float) := None.

(** A value at or above the floor [sqrt(min_variance)]. *)
Definition floored (self : t) (x : float) : Prop :=
  leb (sqrt (min_variance self)) x = true.

End VolatilityEngine64Spec.

Module SizingSpec.
Import F64 Decision.

(** The penalty [1 / (1 + uncertainty_scale * uncertainty_t)] divides two
    Python floats: the interpreter raises [ZeroDivisionError] when the
    divisor is zero, and the block computes a position in every other
    case. *)
Definition penalty_defined (k : kelly_cfg) (uncertainty_t : float) : Prop :=
  eqb (add one (mul (uncertainty_scale k) uncertainty_t)) zero = false.

End SizingSpec.

Module DriftEstimationSpec.
Import VolatilityEngine DriftEstimation.
Local Open Scope R_scope.



(** The default engine, and the call without regime probabilities. *)
Definition sample_engine : t := mk 0 (1 / 100000) (1 / 1000000) true.
Definition no_idxmax (row : probs) : string := "sideways".

End DriftEstimationSpec.

Module PricingEngineSpec.
Local Open Scope R_scope.


End PricingEngineSpec.

(** * Properties *)

(** ** Lists *)

Lemma map2_length {A B C} (f : A -> B -> C) xs ys :
  length (map2 f xs ys) = Nat.min (length xs) (length ys).
Proof. unfold map2. now rewrite length_map, length_combine. Qed.

Lemma nth_error_combine {A B} (xs : list A) (ys : list B) n x y :
  nth_error xs n = Some x -> nth_error ys n = Some y ->
  nth_error (combine xs ys) n = Some (x, y).
Proof.
  revert ys n. induction xs as [|a xs IH]; intros [|b ys] [|n]; simpl;
    try discriminate.
  - now intros [= ->] [= ->].
  - apply IH.
Qed.

Lemma nth_error_map2 {A B C} (f : A -> B -> C) xs ys n x y :
  nth_error xs n = Some x -> nth_error ys n = Some y ->
  nth_error (map2 f xs ys) n = Some (f x y).
Proof.
  intros Hx Hy. unfold map2.
  rewrite nth_error_map, (nth_error_combine _ _ _ _ _ Hx Hy). reflexivity.
Qed.

Lemma nth_error_seq_lt start len n :
  n < len -> nth_error (seq start len) n = Some (start + n).
Proof.
  revert start n. induction len as [|len IH]; intros start [|n] H; simpl;
    try lia.
  - f_equal. lia.
  - rewrite IH by lia. f_equal. lia.
Qed.

Lemma nth_error_map_seq {A} (f : nat -> A) len n :
  n < len -> nth_error (map f (seq 0 len)) n = Some (f n).
Proof.
  intro H. now rewrite nth_error_map, nth_error_seq_lt.
Qed.

(** ** binary64 facts *)

Module F64Facts.
Import F64.

Lemma compare_refl x : is_nan x = false -> SFcompare x x = Some Eq.
Proof.
  destruct x as [s|s|  |s m e]; simpl; try discriminate; intros _.
  - reflexivity.
  - now destruct s.
  - rewrite Z.compare_refl.
    fold (Pos.compare m m). rewrite Pos.compare_refl. now destruct s.
Qed.

Lemma eqb_refl x : is_nan x = false -> eqb x x = true.
Proof. intro H. unfold eqb, SFeqb. now rewrite compare_refl. Qed.

(** Adding [0.0] gives back an equal value (and turns [-0.0] into [0.0]). *)
Lemma add_zero_r x : is_nan x = false -> eqb (add x zero) x = true.
Proof.
  destruct x as [s|s|  |s m e]; try discriminate; intros _.
  - now destruct s.
  - now destruct s.
  - now apply eqb_refl.
Qed.

Lemma add_zero_l x : is_nan x = false -> eqb (add zero x) x = true.
Proof.
  destruct x as [s|s|  |s m e]; try discriminate; intros _.
  - now destruct s.
  - now destruct s.
  - now apply eqb_refl.
Qed.

(** A comparison is never true on NaN. *)
Lemma ltb_nan_r x : ltb x nan = false.
Proof. now destruct x. Qed.

Lemma abs_nan x : is_nan (abs x) = is_nan x.
Proof. now destruct x. Qed.

Lemma compare_antisym x y :
  SFcompare x y = option_map CompOpp (SFcompare y x).
Proof.
  destruct x as [s1|s1|  |s1 m1 e1], y as [s2|s2|  |s2 m2 e2]; simpl;
    try reflexivity; try (now destruct s1); try (now destruct s2);
    try (now destruct s1, s2).
  fold (Pos.compare m1 m2). fold (Pos.compare m2 m1).
  rewrite (Z.compare_antisym e1 e2), (Pos.compare_antisym m1 m2).
  destruct s1, s2; try reflexivity;
    destruct (e1 ?= e2)%Z; simpl; try reflexivity;
    destruct (m1 ?= m2)%positive; reflexivity.
Qed.

(** On numbers the order is total: [x <= y] is the negation of [y < x]. *)
Lemma leb_negb_ltb x y :
  is_nan x = false -> is_nan y = false -> leb x y = negb (ltb y x).
Proof.
  intros Hx Hy. unfold leb, ltb, SFleb, SFltb.
  rewrite (compare_antisym y x).
  destruct x, y; try discriminate; simpl;
    match goal with
    | |- context [match ?c with _ => _ end] => now destruct c
    | _ => reflexivity
    end.
Qed.

Lemma ltb_asym x y : ltb x y = true -> ltb y x = false.
Proof.
  unfold ltb, SFltb. rewrite (compare_antisym y x).
  destruct (SFcompare x y) as [[]|]; simpl; congruence.
Qed.

Lemma div_eucl_pow2 a n k : (0 <= k)%Z -> (0 <= n)%Z ->
  Z.div_eucl (a * 2 ^ (n + k)) (2 ^ n) = (a * 2 ^ k, 0)%Z.
Proof.
  intros Hk Hn.
  assert (H2 : (0 < 2 ^ n)%Z) by (apply Z.pow_pos_nonneg; lia).
  pose proof (Z.div_eucl_eq (a * 2 ^ (n + k)) (2 ^ n) ltac:(lia)) as E.
  pose proof (Z.mod_pos_bound (a * 2 ^ (n + k)) (2 ^ n) H2) as B.
  unfold Z.modulo in B.
  destruct (Z.div_eucl (a * 2 ^ (n + k)) (2 ^ n)) as [q r].
  rewrite Z.pow_add_r in E by lia.
  assert (r = 0 /\ q = a * 2 ^ k)%Z as [-> ->]; [|reflexivity].
  assert (Hr : (r = 2 ^ n * (a * 2 ^ k - q))%Z) by lia.
  assert (a * 2 ^ k - q = 0)%Z by nia.
  split; nia.
Qed.

(** Rounding a canonical mantissa and exponent changes nothing. *)
Lemma binary_round_aux_canonical s m e :
  Z.max (Z.pos (digits2_pos m) + e - 53) (3 - 1024 - 53) = e ->
  (e <= 1024 - 53)%Z ->
  binary_round_aux prec emax s (Z.pos m) e loc_Exact = S754_finite s m e.
Proof.
  intros Hc He.
  unfold binary_round_aux, shr_fexp, fexp, emin, prec, emax.
  cbn [Zdigits2 shr_record_of_loc].
  replace (Z.max (Z.pos (digits2_pos m) + e - 53) (3 - 1024 - 53) - e)%Z
    with 0%Z by lia.
  cbn [shr shr_m loc_of_shr_record round_nearest_even Zdigits2
       shr_record_of_loc].
  replace (Z.max (Z.pos (digits2_pos m) + e - 53) (3 - 1024 - 53) - e)%Z
    with 0%Z by lia.
  cbn [shr shr_m].
  apply Z.leb_le in He. now rewrite He.
Qed.

(** Division by 1.0 is exact on every finite binary64 value. *)
Lemma div_one_finite s m e :
  SpecFloat.bounded prec emax m e = true ->
  div (S754_finite s m e) one = S754_finite s m e.
Proof.
  unfold SpecFloat.bounded, canonical_mantissa, fexp, emin, prec, emax.
  intro H. apply andb_true_iff in H. destruct H as [Hc He].
  apply Z.eqb_eq in Hc. apply Z.leb_le in He.
  unfold div, SFdiv, one, SFdiv_core_binary, prec, emax.
  cbn [Zdigits2].
  change (Z.pos (digits2_pos 4503599627370496)) with 53%Z.
  unfold fexp, emin.
  set (d := Z.pos (digits2_pos m)) in *.
  assert (Hd : (0 < d)%Z) by (unfold d; lia).
  replace (xorb s false) with s by now destruct s.
  assert (Hcase : ((d = 53 /\ -1074 < e) \/ (e = -1074 /\ d <= 53))%Z) by lia.
  destruct Hcase as [[Hd53 Hgt]|[He74 Hle]].
  - replace (Z.min (Z.max (d + e - (53 + -52) - 53) (3 - 1024 - 53))
               (e - -52))%Z with (e - 1)%Z by lia.
    replace (e - -52 - (e - 1))%Z with 53%Z by lia.
    cbv iota beta.
    rewrite Z.shiftl_mul_pow2 by lia.
    change 4503599627370496%Z with (2 ^ 52)%Z.
    change (2 ^ 53)%Z with (2 ^ (52 + 1))%Z.
    rewrite (div_eucl_pow2 (Z.pos m) 52 1) by lia.
    replace (Z.pos m * 2 ^ 1)%Z with (Z.pos m~0) by lia.
    change (new_location (2 ^ 52) 0) with loc_Exact.
    cbv iota beta.
    unfold binary_round_aux, shr_fexp, fexp, emin.
    cbn [Zdigits2 shr_record_of_loc digits2_pos].
    rewrite Pos2Z.inj_succ. fold d.
    replace (Z.max (Z.succ d + (e - 1) - 53) (3 - 1024 - 53) - (e - 1))%Z
      with 1%Z by lia.
    cbn [shr SpecFloat.iter_pos shr_1 shr_m loc_of_shr_record round_nearest_even
         shr_record_of_loc orb Zdigits2].
    fold d.
    replace (e - 1 + 1)%Z with e by lia.
    replace (Z.max (d + e - 53) (3 - 1024 - 53) - e)%Z with 0%Z by lia.
    cbn [shr shr_m].
    apply Z.leb_le in He. now rewrite He.
  - replace (Z.min (Z.max (d + e - (53 + -52) - 53) (3 - 1024 - 53))
               (e - -52))%Z with e by lia.
    replace (e - -52 - e)%Z with 52%Z by lia.
    cbv iota beta.
    rewrite Z.shiftl_mul_pow2 by lia.
    change 4503599627370496%Z with (2 ^ 52)%Z.
    change (2 ^ 52)%Z with (2 ^ (52 + 0))%Z at 1.
    rewrite (div_eucl_pow2 (Z.pos m) 52 0) by lia.
    change (new_location (2 ^ 52) 0) with loc_Exact.
    cbv iota beta.
    replace (Z.pos m * 2 ^ 0)%Z with (Z.pos m) by lia.
    apply binary_round_aux_canonical; [exact Hc | exact He].
Qed.

End F64Facts.

(** ** pandas operations keep the index *)

Module PandasFacts.
Import F64 Pandas.

Lemma reindex_length flags n fill : length (reindex flags n fill) = n.
Proof. unfold reindex. now rewrite length_map, length_seq. Qed.

Lemma rolling_length stat w minp xs :
  length (rolling stat w minp xs) = length xs.
Proof. unfold rolling. now rewrite length_map, length_seq. Qed.

Lemma online_length {state} (fresh : float -> state) add_value remove_value
  result w xs :
  length (online state fresh add_value remove_value result w xs) = length xs.
Proof.
  unfold online. destruct (w =? 0); [apply length_map|].
  assert (H : forall idx st,
             length (online_from state fresh add_value remove_value result w
                       (prep_values xs) st idx) = length idx).
  { induction idx as [|i idx IH]; intro st; simpl; [reflexivity|].
    now rewrite IH. }
  now rewrite H, length_seq.
Qed.

Lemma rolling_mean_length w minp xs :
  length (rolling_mean w minp xs) = length xs.
Proof. apply online_length. Qed.

End PandasFacts.

(** ** Jump detector *)

Module JumpDetectorFacts.
Import F64 F64Facts Pandas PandasFacts JumpDetector.

Lemma detect_jumps_flags_length d returns rob is_jump jr dr :
  detect_jumps d returns rob = Some (is_jump, jr, dr) ->
  length is_jump = length returns.
Proof.
  unfold detect_jumps.
  destruct (length returns <? min_observations d).
  - intros [= <- _ _]. now rewrite length_map.
  - destruct (window d <? 5); [discriminate|].
    intros [= <- _ _]. apply reindex_length.
Qed.

(** How the two returned series are cut from the input by the flags. *)
Lemma detect_jumps_split d returns rob is_jump jr dr :
  detect_jumps d returns rob = Some (is_jump, jr, dr) ->
  jr = map2 (fun (j : bool) r => if j then r else zero) is_jump returns /\
  dr = map2 (fun (j : bool) r => if j then zero else r) is_jump returns.
Proof.
  unfold detect_jumps.
  destruct (length returns <? min_observations d).
  - intros [= <- <- <-]. unfold map2. split.
    + induction returns as [|r rs IH]; simpl; [reflexivity|]. now f_equal.
    + induction returns as [|r rs IH]; simpl; [reflexivity|]. now f_equal.
  - destruct (window d <? 5); [discriminate|].
    intros [= <- <- <-]. split; [|reflexivity].
    unfold map2. apply map_ext. intros [[] r]; reflexivity.
Qed.

(** C1. Conservation: at every timestamp of the input, the jump entry and the
    diffusion entry are the return and [0.0] (in this order when the
    timestamp is flagged, in the other order when it is not), so that
    [jump_returns[t] + diffusion_returns[t] == returns[t]] holds exactly for
    every return that is a number; a NaN return stays NaN in the sum. *)
Theorem detect_jumps_conservation d returns use_robust is_jump jump_returns
  diffusion_returns t r :
  detect_jumps d returns use_robust
    = Some (is_jump, jump_returns, diffusion_returns) ->
  nth_error returns t = Some r ->
  exists j x y,
    nth_error is_jump t = Some j /\
    nth_error jump_returns t = Some x /\
    nth_error diffusion_returns t = Some y /\
    (x, y) = (if j then (r, zero) else (zero, r)) /\
    (is_nan r = false -> eqb (add x y) r = true) /\
    (is_nan r = true -> is_nan (add x y) = true).
Proof.
  intros Hd Hr.
  pose proof (detect_jumps_flags_length _ _ _ _ _ _ Hd) as Hlen.
  destruct (detect_jumps_split _ _ _ _ _ _ Hd) as [-> ->].
  assert (Ht : t < length is_jump).
  { rewrite Hlen. apply nth_error_Some. congruence. }
  destruct (nth_error is_jump t) as [j|] eqn:Hj.
  2:{ apply nth_error_None in Hj. lia. }
  exists j, (if j then r else zero), (if j then zero else r).
  split; [reflexivity|].
  split; [exact (nth_error_map2 _ _ _ _ _ _ Hj Hr)|].
  split; [exact (nth_error_map2 _ _ _ _ _ _ Hj Hr)|].
  split; [now destruct j|].
  split; intro Hn.
  - destruct j; [now apply add_zero_r | now apply add_zero_l].
  - destruct r; try discriminate. now destruct j.
Qed.

(** The labels kept by [dropna] are distinct positions of the input. *)
Lemma combine_seq_fst_nodup {A} (f : nat * A -> bool) (s : list A) a :
  NoDup (map fst (filter f (combine (seq a (length s)) s))) /\
  forall p, In p (filter f (combine (seq a (length s)) s)) ->
            a <= fst p < a + length s.
Proof.
  revert a. induction s as [|x s IH]; intro a; simpl.
  - split; [constructor | intros p []].
  - destruct (IH (S a)) as [Hnd Hin].
    destruct (f (a, x)); simpl.
    + split.
      * constructor; [|exact Hnd].
        intro H. apply in_map_iff in H. destruct H as [p [Hp Hi]].
        apply Hin in Hi. lia.
      * intros p [<-|Hp]; simpl; [lia|]. apply Hin in Hp. lia.
    + split; [exact Hnd|]. intros p Hp. apply Hin in Hp. lia.
Qed.

Lemma dropna_nodup s : NoDup (map fst (dropna s)).
Proof. apply (combine_seq_fst_nodup _ s 0). Qed.

Lemma dropna_index_lt s p : In p (dropna s) -> fst p < length s.
Proof.
  intro H. apply (combine_seq_fst_nodup _ s 0) in H. simpl in H. lia.
Qed.

(** With distinct keys, [find] by key returns the entry at any position that
    carries the key. *)
Lemma find_by_key {B} (l : list (nat * B)) k t b :
  NoDup (map fst l) -> nth_error l k = Some (t, b) ->
  find (fun q : nat * B => Nat.eqb (fst q) t) l = Some (t, b).
Proof.
  revert k. induction l as [|[t' b'] l IH]; intros [|k] Hnd H; simpl in *;
    try discriminate.
  - injection H as -> ->. now rewrite Nat.eqb_refl.
  - inversion Hnd as [|? ? Hnotin Hnd']; subst.
    destruct (Nat.eqb_spec t' t) as [->|Hne].
    + exfalso. apply Hnotin. apply nth_error_In in H.
      change t with (fst (t, b)). now apply in_map.
    + now apply (IH k).
Qed.

Lemma rolling_std_length d rob xs : length (rolling_std d rob xs) = length xs.
Proof.
  unfold rolling_std. destruct rob.
  - unfold rolling_median.
    rewrite length_map, rolling_length, length_map, map2_length,
      rolling_length. apply Nat.min_id.
  - unfold Pandas.rolling_std. rewrite length_map. apply online_length.
Qed.

Lemma z_scores_length d rob xs : length (z_scores d rob xs) = length xs.
Proof.
  unfold z_scores.
  rewrite map2_length, map2_length, rolling_mean_length, rolling_std_length.
  rewrite Nat.min_id. apply Nat.min_id.
Qed.

(** A flag is raised only by a comparison that succeeded, hence never by an
    undefined (NaN) standardized residual. *)
Lemma exceeds_not_nan thr z : ltb thr (abs z) = true -> is_nan z = false.
Proof. destruct z; try reflexivity. now rewrite ltb_nan_r. Qed.

(** C7, as the code has it.  A timestamp is flagged exactly when the input is
    long enough, its return is a number and its standardized residual
    compares greater than the threshold in absolute value.  A residual that
    is NaN (too short a window, 0/0, NaN operands) is never flagged; a
    residual that is infinite because the spread is zero is a number and is
    flagged like any other. *)
Theorem flagged_iff_residual_exceeds d returns use_robust is_jump jump_returns
  diffusion_returns t :
  detect_jumps d returns use_robust
    = Some (is_jump, jump_returns, diffusion_returns) ->
  (nth_error is_jump t = Some true <->
   min_observations d <= length returns /\
   exists k r z,
     nth_error (dropna returns) k = Some (t, r) /\
     nth_error (z_scores d use_robust (map snd (dropna returns))) k = Some z /\
     is_nan z = false /\
     ltb (threshold d) (abs z) = true).
Proof.
  unfold detect_jumps.
  destruct (Nat.ltb_spec (length returns) (min_observations d)) as [Hs|Hl].
  - intros [= <- _ _]. split.
    + rewrite nth_error_map. destruct (nth_error returns t); discriminate.
    + intros [H _]. lia.
  - destruct (window d <? 5); [discriminate|].
    intros [= <- _ _].
    set (clean := dropna returns).
    set (zs := z_scores d use_robust (map snd clean)).
    set (flags := combine (map fst clean)
                    (map (fun z => ltb (threshold d) (abs z)) zs)).
    assert (Hzl : length zs = length clean).
    { unfold zs. now rewrite z_scores_length, length_map. }
    assert (Hfst : map fst flags = map fst clean).
    { unfold flags. revert Hzl. generalize zs.
      induction clean as [|c cl IH]; intros [|z zl]; simpl; try discriminate;
        [reflexivity|]. intros [= H]. f_equal. now apply IH. }
    assert (Hflag : forall k b,
      nth_error flags k = Some (t, b) <->
      exists r z, nth_error clean k = Some (t, r) /\
                  nth_error zs k = Some z /\
                  b = ltb (threshold d) (abs z)).
    { intros k b. unfold flags. split.
      - intro H.
        destruct (nth_error clean k) as [[t' r]|] eqn:Hc.
        2:{ apply nth_error_None in Hc.
            assert (Hk : k < length (combine (map fst clean)
                       (map (fun z => ltb (threshold d) (abs z)) zs))).
            { apply nth_error_Some. congruence. }
            rewrite length_combine, !length_map in Hk. lia. }
        destruct (nth_error zs k) as [z|] eqn:Hz.
        2:{ apply nth_error_None in Hz.
            assert (k < length clean) by (apply nth_error_Some; congruence).
            lia. }
        rewrite (nth_error_combine _ _ k t' (ltb (threshold d) (abs z))) in H.
        + injection H as -> <-. now exists r, z.
        + now rewrite nth_error_map, Hc.
        + now rewrite nth_error_map, Hz.
      - intros [r [z [Hc [Hz ->]]]].
        apply nth_error_combine.
        + now rewrite nth_error_map, Hc.
        + now rewrite nth_error_map, Hz. }
    split.
    + intro H. split; [exact Hl|].
      assert (Ht : t < length returns).
      { rewrite <- (reindex_length flags (length returns) false).
        apply nth_error_Some. congruence. }
      unfold reindex in H. rewrite nth_error_map_seq in H by exact Ht.
      destruct (find _ flags) as [[t' b]|] eqn:Hf; [|discriminate].
      injection H as H. simpl in H. subst b.
      pose proof (find_some _ _ Hf) as [Hin Heq]. simpl in Heq.
      apply Nat.eqb_eq in Heq. subst t'.
      apply In_nth_error in Hin. destruct Hin as [k Hk].
      apply Hflag in Hk. destruct Hk as [r [z [Hc [Hz Hb]]]].
      exists k, r, z. repeat split; try assumption; [|now symmetry].
      symmetry in Hb. now apply exceeds_not_nan in Hb.
    + intros [_ [k [r [z [Hc [Hz [_ Hb]]]]]]].
      assert (Ht : t < length returns).
      { apply nth_error_In in Hc. now apply dropna_index_lt in Hc. }
      unfold reindex. rewrite nth_error_map_seq by exact Ht.
      assert (Hk : nth_error flags k = Some (t, true)).
      { apply Hflag. exists r, z. now rewrite Hb. }
      rewrite (find_by_key flags k t true); [reflexivity| |exact Hk].
      rewrite Hfst. apply dropna_nodup.
Qed.

(** C7 as stated fails: thirty returns, twenty-nine of them 0.0 and the last
    1.0, with the default detector.  At the last timestamp the rolling
    spread is 0.0, the residual is (1.0 - 0.05) / 0.0 = +inf, and the point
    is flagged as a jump. *)
Lemma zero_spread_is_flagged :
  let d := Samples.detector in
  let returns := Samples.quiet_then_spike in
  nth_error (rolling_std d true (map snd (dropna returns))) 29 = Some zero /\
  nth_error (z_scores d true (map snd (dropna returns))) 29
    = Some (S754_infinity false) /\
  exists is_jump jump_returns diffusion_returns,
    detect_jumps d returns true
      = Some (is_jump, jump_returns, diffusion_returns) /\
    nth_error is_jump 29 = Some true.
Proof.
  cbv zeta. split; [vm_compute; reflexivity|].
  split; [vm_compute; reflexivity|].
  eexists _, _, _. split; vm_compute; reflexivity.
Qed.

(** C10. When exactly one entry [v] of [jump_returns] is non-zero, the
    estimated mean jump size is [v], the intensity is 1 / n for the length n
    of the series, and the jump-size deviation is NaN: a sample standard
    deviation of one observation. *)
Theorem single_jump_parameters jump_returns v :
  filter (fun x => negb (eqb x zero)) jump_returns = [v] ->
  valid v = true ->
  estimate_jump_parameters jump_returns
    = mk_params v nan (div one (of_nat (length jump_returns))) /\
  1 <= length jump_returns.
Proof.
  intros Hf Hv. split.
  - unfold estimate_jump_parameters. rewrite Hf.
    change (length [v] =? 0) with false. cbv iota.
    change (of_nat (length [v])) with one.
    assert (Hnz : negb (eqb v zero) = true).
    { assert (Hin : In v (filter (fun x => negb (eqb x zero)) jump_returns))
        by (rewrite Hf; now left).
      now apply filter_In in Hin. }
    f_equal.
    + destruct v as [s|s|  |s m e].
      * now destruct s.
      * now destruct s.
      * reflexivity.
      * unfold nanmean, observations, mean. simpl.
        change (of_nat 1) with one. now apply div_one_finite.
    + unfold nanstd, observations, std. simpl.
      now destruct (negb (is_nan v)).
  - assert (Hl : length (filter (fun x => negb (eqb x zero)) jump_returns)
                 <= length jump_returns) by apply filter_length_le.
    rewrite Hf in Hl. exact Hl.
Qed.

(** The scenarios of the repository's tests and of the specification. *)

(** A constant series has no jump and all-zero jump parameters: every
    residual is 0/0. *)
Example constant_series_has_no_jump :
  detect_jumps Samples.detector (repeat c0_01 40) true
    = Some (repeat false 40, repeat zero 40, repeat c0_01 40) /\
  detect_jumps Samples.detector (repeat c0_01 40) false
    = Some (repeat false 40, repeat zero 40, repeat c0_01 40) /\
  estimate_jump_parameters (repeat zero 40) = mk_params zero zero zero.
Proof. repeat split; vm_compute; reflexivity. Qed.

(** Three returns where thirty are required: no jump, all returns diffusion. *)
Example short_series_has_no_jump :
  detect_jumps Samples.detector [c0_01; SFopp c0_02; c0_015] true
    = Some ([false; false; false], [zero; zero; zero],
            [c0_01; SFopp c0_02; c0_015]).
Proof. reflexivity. Qed.

(** Three jumps in nine days: intensity 3/9. *)
Example three_jumps_in_nine_days :
  lambda (estimate_jump_parameters
            [zero; zero; c0_05; zero; SFopp c0_06; zero; zero; c0_04; zero])
  = div c3 (of_nat 9).
Proof. vm_compute. reflexivity. Qed.

(** A window below [min_periods=5] is refused by pandas. *)
Example narrow_window_is_refused :
  detect_jumps (JumpDetector.mk c3 4 0) [zero; one] true = None.
Proof. reflexivity. Qed.

(** The properties above, at the sample input. *)

Lemma detect_jumps_conservation_witness :
  exists j x y,
    nth_error (repeat false 29 ++ [true]) 29 = Some j /\
    nth_error (repeat zero 29 ++ [one]) 29 = Some x /\
    nth_error (repeat zero 30) 29 = Some y /\
    (x, y) = (if j then (one, zero) else (zero, one)) /\
    (is_nan one = false -> eqb (add x y) one = true) /\
    (is_nan one = true -> is_nan (add x y) = true).
Proof.
  apply (detect_jumps_conservation Samples.detector Samples.quiet_then_spike
           true _ _ _ 29 one); vm_compute; reflexivity.
Defined.

Lemma flagged_iff_residual_exceeds_witness :
  nth_error (repeat false 29 ++ [true]) 29 = Some true <->
  min_observations Samples.detector <= length Samples.quiet_then_spike /\
  exists k r z,
    nth_error (dropna Samples.quiet_then_spike) k = Some (29, r) /\
    nth_error (z_scores Samples.detector true
                 (map snd (dropna Samples.quiet_then_spike))) k = Some z /\
    is_nan z = false /\
    ltb (threshold Samples.detector) (abs z) = true.
Proof.
  apply (flagged_iff_residual_exceeds Samples.detector
           Samples.quiet_then_spike true _
           (repeat zero 29 ++ [one]) (repeat zero 30) 29).
  vm_compute. reflexivity.
Defined.

Lemma single_jump_parameters_witness :
  estimate_jump_parameters [zero; c0_05; zero]
    = mk_params c0_05 nan (div one (of_nat 3)) /\
  1 <= 3.
Proof.
  apply (single_jump_parameters [zero; c0_05; zero] c0_05);
    vm_compute; reflexivity.
Defined.

End JumpDetectorFacts.

(** ** Regime engine *)

Module RegimeEngineFacts.
Import F64 F64Facts Pandas PandasFacts RegimeEngine RegimeEngineSpec.

Lemma classify_cases e v j :
  classify e v j = pure_sideways \/
  classify e v j = crisis_leaning \/
  classify e v j = bull_leaning.
Proof.
  unfold classify.
  destruct (negb (isfinite v) || negb (isfinite j)); [now left|].
  destruct (ltb (high_vol_pct e) v || ltb (jump_rate_threshold e) j);
    [now right; left|].
  destruct (ltb v (low_vol_pct e)
            && ltb j (div (jump_rate_threshold e) two)); [now right; right|].
  now left.
Qed.

Lemma cases_are_triples r :
  r = pure_sideways \/ r = crisis_leaning \/ r = bull_leaning ->
  probability_triple r.
Proof.
  intros [ -> | [ -> | -> ] ]; repeat split; vm_compute; reflexivity.
Qed.

Lemma rows_from_spec e ranks rates rows :
  rows_from e ranks rates = Some rows ->
  length rows = length ranks /\
  Forall (fun r => r = pure_sideways \/ r = crisis_leaning \/
                   r = bull_leaning) rows.
Proof.
  revert rates rows.
  induction ranks as [|v ranks IH]; intros rates rows; simpl.
  - intros [= <-]. split; [reflexivity | constructor].
  - destruct rates as [|j rates]; [discriminate|].
    destruct (rows_from e ranks rates) as [rest|] eqn:Hrest; [|discriminate].
    intros [= <-]. destruct (IH _ _ Hrest) as [Hlen Hall].
    split; [simpl; now f_equal|].
    constructor; [apply classify_cases | exact Hall].
Qed.

Lemma rows_from_total e ranks rates :
  length ranks <= length rates ->
  exists rows, rows_from e ranks rates = Some rows.
Proof.
  revert rates. induction ranks as [|v ranks IH]; intros rates H; simpl.
  - now exists [].
  - destruct rates as [|j rates]; simpl in H; [lia|].
    destruct (IH rates) as [rest ->]; [lia|]. now eexists.
Qed.

(** A frame that is returned was written by the loop from the rolling
    ranks. *)
Lemma detect_regimes_rows e volatility is_jump rows :
  detect_regimes e volatility is_jump = Some rows ->
  rows_from e (rolling rank_pct_last (vol_window e) (vol_window e) volatility)
    (jump_rate e is_jump) = Some rows.
Proof.
  unfold detect_regimes, vol_rank.
  now destruct ((vol_window e =? 0) && negb (length volatility =? 0)).
Qed.

(** The call returns a frame whenever the rank window is not empty and
    [is_jump] covers the timestamps of [volatility]. *)
Lemma detect_regimes_total e volatility is_jump :
  vol_window e <> 0 ->
  length volatility <= length is_jump ->
  exists rows, detect_regimes e volatility is_jump = Some rows.
Proof.
  intros Hw H. unfold detect_regimes, vol_rank.
  destruct (Nat.eqb_spec (vol_window e) 0) as [E|_]; [contradiction|].
  cbn [andb]. apply rows_from_total.
  unfold jump_rate.
  now rewrite rolling_length, rolling_mean_length, length_map.
Qed.

(** C2. Every row of the frame returned by [detect_regimes], one per
    timestamp of [volatility], is one of (0, 1, 0), (0, 0.3, 0.7) and
    (0.7, 0.3, 0): three non-negative floats whose sum is exactly 1.0. *)
Theorem regime_rows_sum_to_one e volatility is_jump rows :
  detect_regimes e volatility is_jump = Some rows ->
  length rows = length volatility /\
  Forall (fun r =>
            (r = pure_sideways \/ r = crisis_leaning \/ r = bull_leaning) /\
            probability_triple r) rows.
Proof.
  intro H. apply detect_regimes_rows, rows_from_spec in H.
  destruct H as [Hlen Hall]. split.
  - rewrite Hlen. apply rolling_length.
  - eapply Forall_impl; [|exact Hall].
    intros r Hr. split; [exact Hr | now apply cases_are_triples].
Qed.

(** The crisis test comes first: a rank above the high percentile wins even
    when the rank is also below the low percentile of a degenerate setup. *)
Example crisis_precedes_bull :
  classify (RegimeEngine.mk 4 2 c0_3 c0_8 c0_05) c0_5 zero = crisis_leaning.
Proof. reflexivity. Qed.

Lemma regime_rows_sum_to_one_witness :
  let rows := [pure_sideways; pure_sideways; pure_sideways; bull_leaning;
               crisis_leaning] in
  length rows = 5 /\
  Forall (fun r =>
            (r = pure_sideways \/ r = crisis_leaning \/ r = bull_leaning) /\
            probability_triple r) rows.
Proof.
  apply (regime_rows_sum_to_one Samples.regime_engine [c3; two; two; one; c3]
           [false; false; false; false; false]).
  vm_compute. reflexivity.
Defined.

End RegimeEngineFacts.

(** ** Verdict *)

Module DecisionFacts.
Import F64 F64Facts Decision DecisionSpec.

(** The clamp leaves a number whenever [max_position] is one. *)
Lemma position_size_is_a_number k m c sigma_t u bull_p sideways_p crisis_p :
  is_nan (max_position k) = false ->
  is_nan (position_size k m c sigma_t u bull_p sideways_p crisis_p) = false.
Proof.
  intro H. unfold position_size. cbv zeta.
  match goal with
  | |- is_nan (py_max _ (py_min _ ?p)) = false => generalize p
  end.
  intro p. unfold py_max, py_min.
  destruct (ltb p (max_position k)) eqn:E1.
  - destruct (ltb (SFopp (max_position k)) p) eqn:E2.
    + destruct p; try reflexivity.
      unfold ltb, SFltb in E1. now destruct (max_position k).
    + now destruct (max_position k).
  - destruct (ltb (SFopp (max_position k)) (max_position k));
      now destruct (max_position k).
Qed.

(** C4. A confidence at or below [min_confidence] always gives REFUSE.  On
    numbers (confidence, position, crisis probability and the two thresholds
    not NaN) the verdict is BUY exactly when the four gates hold and the
    mispricing is negative, SELL exactly when they hold and it is positive,
    and REFUSE in every other case. *)
Theorem verdict_gating m c p crisis_p min_conf min_pos allow :
  (leb c min_conf = true ->
   final_verdict m c p crisis_p min_conf min_pos allow = REFUSE) /\
  (is_nan c = false -> is_nan min_conf = false ->
   is_nan p = false -> is_nan min_pos = false -> is_nan crisis_p = false ->
   let gates := gates_hold m c p crisis_p min_conf min_pos allow in
   let v := final_verdict m c p crisis_p min_conf min_pos allow in
   (v = BUY <-> gates /\ ltb m zero = true) /\
   (v = SELL <-> gates /\ ltb zero m = true) /\
   (~ gates -> v = REFUSE)).
Proof.
  split.
  - intro H. unfold final_verdict. rewrite H.
    now rewrite orb_true_r.
  - intros Hc Hmc Hp Hmp Hcr. cbv zeta. unfold gates_hold, final_verdict.
    assert (Hap : is_nan (abs p) = false) by now rewrite abs_nan.
    rewrite (leb_negb_ltb min_pos (abs p) Hmp Hap).
    rewrite (leb_negb_ltb c min_conf Hc Hmc).
    rewrite (leb_negb_ltb crisis_p c0_5 Hcr eq_refl).
    pose proof (ltb_asym m zero) as Hasym.
    destruct (eqb m zero), (ltb min_conf c), (ltb (abs p) min_pos),
      (ltb c0_5 crisis_p), allow, (ltb m zero), (ltb zero m); simpl;
      try (specialize (Hasym eq_refl); discriminate);
      repeat split; try discriminate; try tauto;
      intuition discriminate.
Qed.

(** A mispricing of -0.05 with confidence 0.7 above the minimum 0.5, position
    0.05 above the minimum 0.01 and no crisis: BUY. *)
Lemma verdict_gating_witness :
  final_verdict (SFopp c0_05) c0_7 c0_05 zero c0_5 c0_01 false = BUY.
Proof.
  destruct (verdict_gating (SFopp c0_05) c0_7 c0_05 zero c0_5 c0_01 false)
    as [_ H].
  destruct (H eq_refl eq_refl eq_refl eq_refl eq_refl) as [Hbuy _].
  apply Hbuy. vm_compute. repeat split. now left.
Defined.

End DecisionFacts.

(** ** Volatility engine *)

Module VolatilityEngineFacts.
Import VolatilityEngine VolatilityEngineSpec.
Local Open Scope R_scope.

Lemma ewm_step_warmed alpha st cur :
  warmed st -> warmed (ewm_step alpha st cur).
Proof.
  unfold warmed, ewm_step. intros Hst.
  destruct (weighted st) as [w|] eqn:Hw.
  - destruct cur; intros _; reflexivity.
  - simpl. destruct cur as [c|]; simpl; intro H; [reflexivity|].
    rewrite Nat.add_0_r in H. now apply Hst.
Qed.

Lemma ewm_step_nobs alpha st cur :
  nobs (ewm_step alpha st cur)
  = (nobs st + (if is_obs cur then 1 else 0))%nat.
Proof.
  unfold ewm_step. destruct (weighted st); [destruct cur|]; reflexivity.
Qed.

(** The entry at position [t] of a run: the state after [t + 1] steps,
    shown when enough observations have been counted. *)
Lemma ewm_run_nth alpha minp xs : forall st t,
  warmed st -> (t < length xs)%nat ->
  exists st',
    warmed st' /\
    nobs st' = (nobs st + seen xs t)%nat /\
    nth_error (ewm_run alpha minp st xs) t
    = Some (if (minp <=? nobs st')%nat then weighted st' else None).
Proof.
  induction xs as [|cur xs IH]; intros st t Hst Ht; simpl in Ht; [lia|].
  pose proof (ewm_step_warmed alpha st cur Hst) as Hst1.
  pose proof (ewm_step_nobs alpha st cur) as Hn1.
  destruct t as [|t].
  - exists (ewm_step alpha st cur). split; [exact Hst1|]. split.
    + rewrite Hn1. unfold seen. simpl. now destruct (is_obs cur).
    + reflexivity.
  - destruct (IH (ewm_step alpha st cur) t Hst1 ltac:(lia))
      as [st' [Hw [Hn Hnth]]].
    exists st'. split; [exact Hw|]. split; [|exact Hnth].
    rewrite Hn, Hn1. unfold seen.
    change (firstn (S (S t)) (cur :: xs)) with (cur :: firstn (S t) xs).
    simpl. destruct (is_obs cur); simpl; lia.
Qed.

Lemma ewm_run_length alpha minp xs : forall st,
  length (ewm_run alpha minp st xs) = length xs.
Proof.
  induction xs as [|x xs IH]; intro st; simpl; [reflexivity|].
  now rewrite IH.
Qed.

Lemma ewm_mean_nth alpha min_periods xs t :
  (t < length xs)%nat ->
  (Nat.max min_periods 1 <= seen xs t ->
   exists v, nth_error (ewm_mean alpha min_periods xs) t = Some (Some v))%nat /\
  (seen xs t < Nat.max min_periods 1 ->
   nth_error (ewm_mean alpha min_periods xs) t = Some None)%nat.
Proof.
  intro Ht. unfold ewm_mean.
  destruct (ewm_run_nth alpha (Nat.max min_periods 1) xs (mk_ewm None 1 0) t)
    as [st' [Hw [Hn Hnth]]]; [intro H; simpl in H; lia | exact Ht |].
  simpl in Hn. rewrite Hnth, Hn. split; intro H.
  - destruct (Nat.leb_spec (Nat.max min_periods 1) (seen xs t)); [|lia].
    assert (Hobs : is_obs (weighted st') = true) by (apply Hw; lia).
    destruct (weighted st') as [v|]; [now exists v | discriminate].
  - destruct (Nat.leb_spec (Nat.max min_periods 1) (seen xs t)); [lia|].
    reflexivity.
Qed.

Lemma seen_map f xs t :
  seen (map (option_map f) xs) t = seen xs t.
Proof.
  unfold seen, num in *. rewrite firstn_map.
  generalize (firstn (S t) xs). intro l.
  induction l as [|x l IH]; simpl; [reflexivity|].
  destruct x; simpl; now rewrite IH.
Qed.



Section WithGarch.

Variable arch_fit : list num -> nat -> nat -> option (list num).

(** C6. When the external GARCH routine raises, [garch_volatility] returns
    what [ewma_volatility] returns for the decay 0.90, and that is a series
    (one value per return), not an exception. *)
Theorem garch_failure_falls_back self returns p q :
  arch_fit (returns_pct returns) p q = None ->
  garch_volatility arch_fit self returns p q
    = ewma_volatility self returns (9 / 10) 20 /\
  exists vols,
    garch_volatility arch_fit self returns p q = Ok vols /\
    length vols = length returns.
Proof.
  intro Hfit. unfold garch_volatility. rewrite Hfit.
  split; [reflexivity|].
  unfold ewma_volatility.
  destruct (Rlt_dec 0 (1 - 9 / 10)) as [_|H]; [|lra].
  destruct (Rle_dec (1 - 9 / 10) 1) as [_|H]; [|lra].
  eexists. split; [reflexivity|].
  unfold ewm_mean. rewrite !length_map, ewm_run_length.
  try rewrite length_map. reflexivity.
Qed.



End WithGarch.


Lemma garch_failure_falls_back_witness :
  garch_volatility failing_fit default_engine [Some (1 / 100)] 1 1
    = ewma_volatility default_engine [Some (1 / 100)] (9 / 10) 20 /\
  exists vols,
    garch_volatility failing_fit default_engine [Some (1 / 100)] 1 1
      = Ok vols /\
    length vols = length [Some (1 / 100)].
Proof.
  apply (garch_failure_falls_back failing_fit default_engine).
  reflexivity.
Defined.


End VolatilityEngineFacts.

(** ** Regime labels *)

Module RegimeLabelFacts.
Import F64 RegimeLabelSpec.

Lemma unknown_regime_eqb regime :
  ~ known_regime regime ->
  String.eqb regime "bull" = false /\
  String.eqb regime "sideways" = false /\
  String.eqb regime "crisis" = false.
Proof.
  unfold known_regime. intro H.
  repeat split; apply String.eqb_neq; intro E; apply H; auto.
Qed.

(** C9, as the code has it.  On a label outside bull, sideways and crisis
    the volatility engine raises [ValueError]; the drift engine does not: it
    tunes the filter with the multiplier 1.0 (that of bull) and the
    observation variance without the crisis doubling. *)
Theorem unknown_regime_label arch_fit self returns d kf regime volatility :
  ~ known_regime regime ->
  VolatilityEngine.estimate_regime_volatility arch_fit self returns regime
    = Raise (ValueError ("Unknown regime: " ++ regime)) /\
  DriftEngine.update_regime_parameters d kf regime volatility
    = Ok (let kf1 :=
            DriftEngine.set_Q kf (mul (DriftEngine.state_noise_factor d) one) in
          if DriftEngine.adaptive d
          then DriftEngine.set_R kf1
                 (py_max (mul volatility volatility)
                         (DriftEngine.min_obs_variance d))
          else kf1).
Proof.
  intro H. destruct (unknown_regime_eqb regime H) as [Hb [Hs Hc]]. split.
  - unfold VolatilityEngine.estimate_regime_volatility.
    now rewrite Hb, Hs, Hc.
  - unfold DriftEngine.update_regime_parameters.
    rewrite Hb, Hs, Hc. cbv zeta. now destruct (DriftEngine.adaptive d).
Qed.

(** C9 as stated fails for the drift engine: the label "euphoria" is taken
    without an error, and the process noise is set as for bull. *)
Lemma drift_engine_accepts_unknown_regime :
  let d := Samples.drift_engine in
  let kf := Samples.fresh_filter in
  ~ known_regime "euphoria" /\
  exists kf',
    DriftEngine.update_regime_parameters d kf "euphoria" c0_01 = Ok kf' /\
    DriftEngine.update_regime_parameters d kf "bull" c0_01 = Ok kf' /\
    DriftEngine.kf_Q kf' = c1e_5.
Proof.
  cbv zeta. split.
  - intros [H|[H|H]]; discriminate.
  - eexists. split; [vm_compute; reflexivity|].
    split; vm_compute; reflexivity.
Qed.

Lemma unknown_regime_label_witness :
  VolatilityEngine.estimate_regime_volatility
    VolatilityEngineSpec.failing_fit VolatilityEngineSpec.default_engine []
    "euphoria"
    = Raise (ValueError "Unknown regime: euphoria") /\
  DriftEngine.update_regime_parameters Samples.drift_engine
    Samples.fresh_filter "euphoria" c0_01
    = Ok (let kf1 :=
            DriftEngine.set_Q Samples.fresh_filter
              (mul (DriftEngine.state_noise_factor Samples.drift_engine) one) in
          if DriftEngine.adaptive Samples.drift_engine
          then DriftEngine.set_R kf1
                 (py_max (mul c0_01 c0_01)
                         (DriftEngine.min_obs_variance Samples.drift_engine))
          else kf1).
Proof.
  apply (unknown_regime_label VolatilityEngineSpec.failing_fit
           VolatilityEngineSpec.default_engine [] Samples.drift_engine
           Samples.fresh_filter "euphoria" c0_01).
  intros [H|[H|H]]; discriminate.
Defined.

End RegimeLabelFacts.

(** ** Pricing engine *)

Module PricingEngineFacts.
Import PricingEngine.
Local Open Scope R_scope.











End PricingEngineFacts.

(** ** Confidence *)

Module ConfidenceFacts.
Import Confidence.
Local Open Scope R_scope.

(** The sigmoid does not decrease, for any steepness that is not negative. *)
Lemma sigmoid_monotone k x y :
  0 <= k -> x <= y -> sigmoid x k <= sigmoid y k.
Proof.
  intros Hk Hxy. unfold sigmoid.
  assert (He : exp (- k * (y - 1 / 2)) <= exp (- k * (x - 1 / 2))).
  { assert (Hp : 0 <= k * (y - x)) by (apply Rmult_le_pos; lra).
    assert (Hle : - k * (y - 1 / 2) <= - k * (x - 1 / 2)) by lra.
    destruct Hle as [Hlt|Heq].
    - left. now apply exp_increasing.
    - right. now rewrite Heq. }
  pose proof (exp_pos (- k * (y - 1 / 2))).
  pose proof (exp_pos (- k * (x - 1 / 2))).
  set (a := exp (- k * (y - 1 / 2))) in *.
  set (b := exp (- k * (x - 1 / 2))) in *.
  unfold Rdiv. rewrite !Rmult_1_l.
  apply Rinv_le_contravar; lra.
Qed.

Lemma raw_bias_monotone threshold m1 m2 :
  0 < threshold -> Rabs m1 <= Rabs m2 ->
  raw_bias threshold m1 <= raw_bias threshold m2.
Proof.
  intros Ht Hm. unfold raw_bias.
  assert (Rabs m1 / threshold <= Rabs m2 / threshold).
  { unfold Rdiv. apply Rmult_le_compat_r; [|exact Hm].
    left. now apply Rinv_0_lt_compat. }
  unfold Rmin.
  destruct (Rle_dec 1 (Rabs m1 / threshold)),
    (Rle_dec 1 (Rabs m2 / threshold)); lra.
Qed.

(** C8. For a fixed positive [buy_threshold], the confidence of the decision
    stage does not decrease when the absolute mispricing grows. *)
Theorem confidence_monotone threshold m1 m2 :
  0 < threshold -> Rabs m1 <= Rabs m2 ->
  confidence threshold m1 <= confidence threshold m2.
Proof.
  intros Ht Hm. unfold confidence.
  apply sigmoid_monotone; [lra|]. now apply raw_bias_monotone.
Qed.

Lemma confidence_monotone_witness :
  confidence (2 / 100) (1 / 100) <= confidence (2 / 100) (- (3 / 100)).
Proof.
  apply (confidence_monotone (2 / 100) (1 / 100) (- (3 / 100))); [lra|].
  rewrite Rabs_right, Rabs_left; lra.
Defined.

End ConfidenceFacts.

(** * Further properties of the program *)

(** ** More binary64 facts *)

Module F64Order.
Import F64 F64Facts.

Lemma ltb_leb x y : ltb x y = true -> leb x y = true.
Proof.
  unfold ltb, leb, SFltb, SFleb.
  destruct (SFcompare x y) as [[]|]; congruence.
Qed.

Lemma leb_refl x : is_nan x = false -> leb x x = true.
Proof. intro H. unfold leb, SFleb. now rewrite compare_refl. Qed.

Lemma leb_not_nan_r x y : leb x y = true -> is_nan y = false.
Proof. destruct x, y; try reflexivity; discriminate. Qed.

Lemma leb_not_nan_l x y : leb x y = true -> is_nan x = false.
Proof. destruct x, y; try reflexivity; discriminate. Qed.

Lemma ltb_not_nan_l x y : ltb x y = true -> is_nan x = false.
Proof. destruct x, y; try reflexivity; discriminate. Qed.

Lemma ltb_not_nan_r x y : ltb x y = true -> is_nan y = false.
Proof. destruct x, y; try reflexivity; discriminate. Qed.

(** A value that is not negative is at or above its own negation. *)
Lemma opp_leb_self x : leb zero x = true -> leb (SFopp x) x = true.
Proof. destruct x as [s|s|  |s m e]; try destruct s; try discriminate;
  intros _; try reflexivity. Qed.

Lemma opp_ltb_self x : ltb zero x = true -> ltb (SFopp x) x = true.
Proof. destruct x as [s|s|  |s m e]; try destruct s; try discriminate;
  intros _; reflexivity. Qed.

Lemma mul_nan_r x : mul x nan = nan.
Proof. now destruct x. Qed.

Lemma div_nan_r x : div x nan = nan.
Proof. now destruct x. Qed.

Lemma ltb_nan_l x : ltb nan x = false.
Proof. reflexivity. Qed.

(** Python's [max(lo, min(hi, p))] stays between [lo] and [hi]. *)
Lemma clamp_between lo hi p :
  leb lo hi = true ->
  leb lo (py_max lo (py_min hi p)) = true /\
  leb (py_max lo (py_min hi p)) hi = true.
Proof.
  intro H.
  pose proof (leb_not_nan_l _ _ H) as Hlo.
  pose proof (leb_not_nan_r _ _ H) as Hhi.
  unfold py_max, py_min.
  destruct (ltb p hi) eqn:E1.
  - destruct (ltb lo p) eqn:E2.
    + split; now apply ltb_leb.
    + split; [now apply leb_refl | exact H].
  - destruct (ltb lo hi) eqn:E2.
    + split; [now apply ltb_leb | now apply leb_refl].
    + split; [now apply leb_refl | exact H].
Qed.

Lemma leb_ltb_trans a b c :
  leb a b = true -> ltb b c = true -> ltb a c = true.
Proof.
  unfold leb, ltb, SFleb, SFltb.
  destruct a as [sa|sa| |sa ma ea], b as [sb|sb| |sb mb eb],
    c as [sc|sc| |sc mc ec]; cbn [SFcompare];
    try destruct sa; try destruct sb; try destruct sc;
    try discriminate; try reflexivity; try (intros; assumption).
  all: change (PosDef.Pos.compare_cont Eq) with Pos.compare.
  all: destruct (Z.compare_spec ea eb), (Z.compare_spec eb ec),
         (Z.compare_spec ea ec); subst;
       try lia; try discriminate; try reflexivity.
  all: destruct (Pos.compare_spec ma mb), (Pos.compare_spec mb mc),
         (Pos.compare_spec ma mc); subst; cbn [CompOpp];
       try lia; try discriminate; try reflexivity.
Qed.

End F64Order.

(** ** Position sizing ([src/main.py], the block under Kelly sizing) *)

Module SizingFacts.
Import F64 F64Facts F64Order Decision SizingSpec.

(** X1. Whenever the penalty is defined, and whatever the mispricing,
    confidence, volatility, uncertainty and regime probabilities otherwise
    are (NaN and infinities included), the position lies between
    [-max_position] and [max_position], for every [max_position] that is
    not negative. *)
Theorem position_within_max k m c sigma_t u bull_p sideways_p crisis_p :
  penalty_defined k u ->
  leb zero (max_position k) = true ->
  let p := position_size k m c sigma_t u bull_p sideways_p crisis_p in
  leb (SFopp (max_position k)) p = true /\ leb p (max_position k) = true.
Proof.
  intros _ H. cbv zeta. unfold position_size. cbv zeta.
  apply clamp_between. now apply opp_leb_self.
Qed.

Lemma position_within_max_witness :
  let k := mk_kelly c0_5 c0_3 c0_01 two one c0_7 c0_5 c0_3 in
  let p := position_size k (SFopp c0_05) c0_7 c0_02 c0_01 zero one zero in
  leb (SFopp c0_3) p = true /\ leb p c0_3 = true.
Proof.
  cbv zeta.
  apply (position_within_max (mk_kelly c0_5 c0_3 c0_01 two one c0_7 c0_5 c0_3)
           (SFopp c0_05) c0_7 c0_02 c0_01 zero one zero).
  - reflexivity.
  - reflexivity.
Defined.

(** X2. When the current volatility is NaN (as it is while the EWMA has seen
    fewer than [min_periods] returns) and the penalty is defined, the
    position is exactly [+max_position], whatever the direction of the
    mispricing: the NaN size fails the comparison of
    [min(max_position, position)], which then keeps its first argument. *)
Theorem nan_volatility_takes_max_position k m c u bull_p sideways_p crisis_p :
  penalty_defined k u ->
  ltb zero (max_position k) = true ->
  position_size k m c nan u bull_p sideways_p crisis_p = max_position k.
Proof.
  intros _ H. unfold position_size. cbv zeta.
  change (mul nan (jump_risk_multiplier k)) with nan.
  change (py_max nan c1e_6) with nan.
  rewrite div_nan_r, mul_nan_r.
  change (mul nan ?x) with nan.
  unfold py_min at 2. rewrite ltb_nan_r, mul_nan_r.
  unfold py_min. rewrite ltb_nan_l.
  unfold py_max. now rewrite opp_ltb_self.
Qed.

Lemma nan_volatility_takes_max_position_witness :
  position_size (mk_kelly c0_5 c0_3 c0_01 two one c0_7 c0_5 c0_3)
    c0_05 c0_7 nan c0_01 zero one zero = c0_3.
Proof.
  apply (nan_volatility_takes_max_position
           (mk_kelly c0_5 c0_3 c0_01 two one c0_7 c0_5 c0_3)).
  - reflexivity.
  - reflexivity.
Defined.

End SizingFacts.

(** ** Confidence: range and saturation ([src/main.py]) *)

Module ConfidenceRange.
Import Confidence ConfidenceFacts.
Local Open Scope R_scope.

Lemma raw_bias_range threshold m :
  0 < threshold -> 0 <= raw_bias threshold m <= 1.
Proof.
  intro Ht. unfold raw_bias, Rmin.
  assert (0 <= Rabs m / threshold).
  { apply Rmult_le_pos; [apply Rabs_pos|].
    left. now apply Rinv_0_lt_compat. }
  destruct (Rle_dec 1 (Rabs m / threshold)); lra.
Qed.

Lemma sigmoid_strictly_inside x k : 0 < sigmoid x k < 1.
Proof.
  unfold sigmoid. pose proof (exp_pos (- k * (x - 1 / 2))) as He.
  set (a := exp (- k * (x - 1 / 2))) in *.
  split.
  - apply Rdiv_lt_0_compat; lra.
  - apply Rmult_lt_reg_r with (1 + a); [lra|].
    unfold Rdiv. rewrite Rmult_assoc, Rinv_l by lra. lra.
Qed.

(** X3. For a positive [buy_threshold] the confidence lies strictly between
    0 and 1, never below its value sigmoid(0) at zero mispricing nor above
    its value sigmoid(1), which it takes for every mispricing of absolute
    value at least [buy_threshold]. *)
Theorem confidence_range_and_saturation threshold m :
  0 < threshold ->
  0 < confidence threshold m < 1 /\
  sigmoid 0 5 <= confidence threshold m <= sigmoid 1 5 /\
  confidence threshold 0 = sigmoid 0 5 /\
  (threshold <= Rabs m -> confidence threshold m = sigmoid 1 5).
Proof.
  intro Ht. pose proof (raw_bias_range threshold m Ht) as [H0 H1].
  unfold confidence. split; [apply sigmoid_strictly_inside|]. split.
  - split; apply sigmoid_monotone; lra.
  - split.
    + unfold raw_bias. rewrite Rabs_R0. unfold Rdiv. rewrite Rmult_0_l.
      now rewrite Rmin_right by lra.
    + intro Hm. unfold raw_bias. rewrite Rmin_left; [reflexivity|].
      apply Rmult_le_reg_r with threshold; [exact Ht|].
      unfold Rdiv. rewrite Rmult_assoc, Rinv_l by lra. lra.
Qed.

Lemma confidence_range_and_saturation_witness :
  0 < confidence (2 / 100) (5 / 100) < 1 /\
  sigmoid 0 5 <= confidence (2 / 100) (5 / 100) <= sigmoid 1 5 /\
  confidence (2 / 100) 0 = sigmoid 0 5 /\
  (2 / 100 <= Rabs (5 / 100) ->
   confidence (2 / 100) (5 / 100) = sigmoid 1 5).
Proof.
  apply (confidence_range_and_saturation (2 / 100) (5 / 100)). lra.
Defined.

End ConfidenceRange.

(** ** Volatility engine: errors, the documented recursion, warm-up *)

Module VolatilityEngineMore.
Import VolatilityEngine VolatilityEngineSpec VolatilityEngineFacts EwmaFormula.
Local Open Scope R_scope.




Lemma ewma_volatility_early_entry self returns lambda_decay min_periods vols
  t :
  ewma_volatility self returns lambda_decay min_periods = Ok vols ->
  (t < length returns)%nat ->
  (seen returns t < Nat.max min_periods 1)%nat ->
  nth_error vols t = Some None.
Proof.
  unfold ewma_volatility.
  destruct (Rlt_dec 0 (1 - lambda_decay)); [|discriminate].
  destruct (Rle_dec (1 - lambda_decay) 1); [|discriminate].
  intros [= <-] Ht Hs.
  change (fun r1 : R => r1 * (r1 * 1)) with (fun r : R => r ^ 2).
  set (sq := map (option_map (fun r => r ^ 2)) returns).
  assert (Hts : (t < length sq)%nat) by (unfold sq; now rewrite length_map).
  destruct (ewm_mean_nth (1 - lambda_decay) min_periods sq t Hts)
    as [_ Hnone].
  unfold sq in Hnone. rewrite seen_map in Hnone. fold sq in Hnone.
  now rewrite !nth_error_map, (Hnone Hs).
Qed.

Section WithGarch.

Variable arch_fit : list num -> nat -> nat -> option (list num).

(** X6. Until 20 returns that are numbers have been seen, the
    regime-weighted blend is NaN at the timestamp, whatever the regime
    weights and whatever the GARCH routine returned: the slow EWMA it blends
    is still NaN there. *)
Theorem effective_volatility_nan_in_warmup self returns regime_probabilities
  vols t :
  compute_effective_volatility arch_fit self returns regime_probabilities
    = Ok vols ->
  (t < length returns)%nat ->
  (seen returns t < 20)%nat ->
  nth_error vols t = Some None.
Proof.
  unfold compute_effective_volatility, estimate_regime_volatility.
  cbn [String.eqb Ascii.eqb Bool.eqb].
  destruct (ewma_volatility self returns (bull_lambda self) 20)
    as [vb|] eqn:Eb; [|discriminate].
  destruct (garch_volatility arch_fit self returns (garch_p self)
              (garch_q self)) as [vs|]; [|discriminate].
  destruct (ewma_volatility self returns (crisis_lambda self) 20)
    as [vc|]; [|discriminate].
  intros [= <-] Ht Hs.
  rewrite nth_error_map_seq by lia.
  pose proof (ewma_volatility_early_entry _ _ _ _ _ t Eb Ht Hs) as Hb.
  unfold column. destruct (Nat.ltb_spec t (length returns)); [|lia].
  assert (E : nth t vb None = None) by (apply nth_error_nth; exact Hb).
  now rewrite E.
Qed.

End WithGarch.

Lemma effective_volatility_nan_in_warmup_witness :
  nth_error [@None R] 0 = Some None.
Proof.
  apply (effective_volatility_nan_in_warmup failing_fit default_engine
           [Some (1 / 100)] [mk_probs (Some 0) (Some 1) (Some 0)] [None] 0).
  - unfold compute_effective_volatility, estimate_regime_volatility.
    cbn [String.eqb Ascii.eqb Bool.eqb].
    unfold garch_volatility, failing_fit, ewma_volatility.
    cbn [bull_lambda crisis_lambda default_engine].
    destruct (Rlt_dec 0 (1 - 94 / 100)) as [_|N]; [|lra].
    destruct (Rle_dec (1 - 94 / 100) 1) as [_|N]; [|lra].
    destruct (Rlt_dec 0 (1 - 9 / 10)) as [_|N]; [|lra].
    destruct (Rle_dec (1 - 9 / 10) 1) as [_|N]; [|lra].
    destruct (Rlt_dec 0 (1 - 85 / 100)) as [_|N]; [|lra].
    destruct (Rle_dec (1 - 85 / 100) 1) as [_|N]; [|lra].
    reflexivity.
  - simpl. lia.
  - unfold seen. simpl. lia.
Defined.

End VolatilityEngineMore.

(** ** Volatility engine on binary64: where rounding shows *)

Module VolatilityEngine64Facts.
Import F64 F64Facts F64Order Pandas VolatilityEngine64 VolatilityEngine64Spec
  RegimeEngineSpec.

Lemma clip_lower_floor lower v :
  is_nan lower = false ->
  is_nan (clip_lower lower v) = true \/ leb lower (clip_lower lower v) = true.
Proof.
  intro Hl. unfold clip_lower. rewrite Hl.
  destruct (is_nan v) eqn:Hv; [now left|]. cbn [orb].
  destruct (leb lower v) eqn:Hle; right; [exact Hle | now apply leb_refl].
Qed.

(** On binary64 too, every entry of [ewma_volatility] is the square root of
    a variance that is NaN or at least [min_variance]: the clip compares and
    does not round, and a correctly rounded square root does not
    decrease. *)
Lemma ewma_entry_is_root_of_clipped_variance self returns lambda_decay
  min_periods vols t x :
  is_nan (min_variance self) = false ->
  ewma_volatility self returns lambda_decay min_periods = Ok vols ->
  nth_error vols t = Some x ->
  exists v, x = sqrt v /\
            (is_nan v = true \/ leb (min_variance self) v = true).
Proof.
  intros Hm. unfold ewma_volatility.
  destruct (ewm_mean _ _ _) as [variance|]; [|discriminate].
  intros [= <-]. rewrite !nth_error_map.
  destruct (nth_error variance t) as [w|]; [|discriminate].
  intros [= <-]. eexists. split; [reflexivity|].
  now apply clip_lower_floor.
Qed.

(** The test of pandas is made on the rounded [1 - lambda_decay]: a decay of
    -2^-60 gives [alpha = 1.0] and is accepted. *)
Example tiny_negative_decay_is_accepted :
  ewma_volatility coarse_engine [zero]
    (S754_finite true 4503599627370496 (-112)) 1
  = Ok [c0_01].
Proof. vm_compute. reflexivity. Qed.

(** C3 fails for the blend as well, by rounding.  Twenty returns of 0.0
    with the variance floor 1e-4, a GARCH routine that raises and the rows
    (0.7, 0.3, 0) that [detect_regimes] writes for a bull market: at the
    last timestamp the three estimators are at the floor
    [sqrt(1e-4) = 0.01], and their blend
    [0.01 * 0.7 + 0.01 * 0.3 + 0.01 * 0.0] is 0.009999999999999998, below
    the floor.  The crisis rows (0, 0.3, 0.7) give the same value. *)
Example blend_rounds_below_floor :
  let returns := repeat zero 20 in
  sqrt (min_variance coarse_engine) = c0_01 /\
  (exists vols,
     ewma_volatility coarse_engine returns c0_94 20 = Ok vols /\
     nth_error vols 19 = Some c0_01) /\
  (exists vols,
     garch_volatility failing_fit coarse_engine returns 1 1 = Ok vols /\
     nth_error vols 19 = Some c0_01) /\
  (exists vols x,
     compute_effective_volatility failing_fit coarse_engine returns
       (repeat bull_leaning 20) = Ok vols /\
     nth_error vols 19 = Some x /\
     ltb x (sqrt (min_variance coarse_engine)) = true /\
     ~ floored coarse_engine x) /\
  (exists vols x,
     compute_effective_volatility failing_fit coarse_engine returns
       (repeat crisis_leaning 20) = Ok vols /\
     nth_error vols 19 = Some x /\
     ltb x (sqrt (min_variance coarse_engine)) = true /\
     ~ floored coarse_engine x).
Proof.
  cbv zeta. split; [vm_compute; reflexivity|].
  split; [eexists; split; vm_compute; reflexivity|].
  split; [eexists; split; vm_compute; reflexivity|].
  split.
  - eexists _, _. split; [vm_compute; reflexivity|].
    split; [vm_compute; reflexivity|].
    split; [vm_compute; reflexivity|].
    unfold floored. vm_compute. discriminate.
  - eexists _, _. split; [vm_compute; reflexivity|].
    split; [vm_compute; reflexivity|].
    split; [vm_compute; reflexivity|].
    unfold floored. vm_compute. discriminate.
Qed.

End VolatilityEngine64Facts.

(** ** Jump detector: errors, shapes, NaN returns, the threshold *)

Module JumpDetectorMore.
Import F64 F64Facts F64Order Pandas PandasFacts JumpDetector
  JumpDetectorFacts.

(** X7. [detect_jumps] fails (the [ValueError] of a rolling window smaller
    than [min_periods=5]) exactly when the input has at least
    [min_observations] entries and [window] is below 5: a shorter input
    returns before the window is looked at.  When it returns, the flags and
    both return series have the length of the input. *)
Theorem detect_jumps_error_and_shape d returns use_robust :
  (detect_jumps d returns use_robust = None <->
   min_observations d <= length returns /\ window d < 5) /\
  (forall is_jump jump_returns diffusion_returns,
     detect_jumps d returns use_robust
       = Some (is_jump, jump_returns, diffusion_returns) ->
     length is_jump = length returns /\
     length jump_returns = length returns /\
     length diffusion_returns = length returns).
Proof.
  split.
  - unfold detect_jumps.
    destruct (Nat.ltb_spec (length returns) (min_observations d)).
    + split; [discriminate | lia].
    + destruct (Nat.ltb_spec (window d) 5).
      * split; [now split | reflexivity].
      * split; [discriminate | lia].
  - intros f jr dr H.
    pose proof (detect_jumps_flags_length _ _ _ _ _ _ H) as Hf.
    destruct (detect_jumps_split _ _ _ _ _ _ H) as [-> ->].
    rewrite !map2_length, Hf, Nat.min_id. auto.
Qed.

Lemma detect_jumps_error_and_shape_witness :
  (detect_jumps (JumpDetector.mk c3 4 2) [zero; one] true = None <->
   2 <= 2 /\ 4 < 5) /\
  (forall is_jump jump_returns diffusion_returns,
     detect_jumps (JumpDetector.mk c3 4 2) [zero; one] true
       = Some (is_jump, jump_returns, diffusion_returns) ->
     length is_jump = 2 /\
     length jump_returns = 2 /\
     length diffusion_returns = 2).
Proof.
  exact (detect_jumps_error_and_shape (JumpDetector.mk c3 4 2) [zero; one]
           true).
Defined.

Lemma unflagged_jump_series (flags : list bool) returns :
  (forall t, nth_error flags t <> Some true) ->
  filter (fun x => negb (eqb x zero))
    (map2 (fun (j : bool) r => if j then r else zero) flags returns) = [].
Proof.
  revert returns.
  induction flags as [|b fl IH]; intros [|r rs] H; try reflexivity.
  unfold map2. cbn [combine map fst snd filter].
  destruct b; [exfalso; now apply (H 0)|].
  change (negb (eqb zero zero)) with false. cbv iota.
  apply IH. intro t. apply (H (S t)).
Qed.

(** X8. When [detect_jumps] flags no timestamp (in particular on an input
    shorter than [min_observations]), [estimate_jump_parameters] of the jump
    series it returns is mu_j = sigma_j = lambda = 0.0. *)
Theorem no_flag_gives_zero_parameters d returns use_robust is_jump
  jump_returns diffusion_returns :
  detect_jumps d returns use_robust
    = Some (is_jump, jump_returns, diffusion_returns) ->
  (length returns < min_observations d \/
   forall t, nth_error is_jump t <> Some true) ->
  estimate_jump_parameters jump_returns = mk_params zero zero zero.
Proof.
  intros H Hno.
  assert (Hall : forall t, nth_error is_jump t <> Some true).
  { destruct Hno as [Hshort|Hno]; [|exact Hno].
    revert H. unfold detect_jumps.
    destruct (Nat.ltb_spec (length returns) (min_observations d)); [|lia].
    intros [= <- _ _] t. rewrite nth_error_map.
    destruct (nth_error returns t); discriminate. }
  destruct (detect_jumps_split _ _ _ _ _ _ H) as [-> _].
  unfold estimate_jump_parameters.
  now rewrite (unflagged_jump_series is_jump returns Hall).
Qed.

Lemma no_flag_gives_zero_parameters_witness :
  estimate_jump_parameters [zero; zero; zero] = mk_params zero zero zero.
Proof.
  apply (no_flag_gives_zero_parameters Samples.detector
           [c0_01; SFopp c0_02; c0_015] true [false; false; false]
           [zero; zero; zero] [c0_01; SFopp c0_02; c0_015]).
  - reflexivity.
  - left. simpl. lia.
Defined.

(** What [dropna] keeps: entries of the input that are numbers, under their
    own position. *)
Lemma combine_seq_entry {A} (f : nat * A -> bool) (s : list A) a p :
  In p (filter f (combine (seq a (length s)) s)) ->
  a <= fst p /\ nth_error s (fst p - a) = Some (snd p) /\ f p = true.
Proof.
  revert a. induction s as [|x s IH]; intros a H; simpl in H; [easy|].
  assert (Hrest : In p (filter f (combine (seq (S a) (length s)) s)) ->
                  a <= fst p /\ nth_error (x :: s) (fst p - a) = Some (snd p)
                  /\ f p = true).
  { intro Hin. destruct (IH _ Hin) as [Hle [Hnth Hf]].
    repeat split; [lia | | exact Hf].
    replace (fst p - a) with (S (fst p - S a)) by lia. exact Hnth. }
  destruct (f (a, x)) eqn:Hfa; [|now apply Hrest].
  destruct H as [<-|Hin]; [|now apply Hrest].
  simpl. rewrite Nat.sub_diag. now repeat split.
Qed.

Lemma dropna_entry s p :
  In p (dropna s) ->
  nth_error s (fst p) = Some (snd p) /\ is_nan (snd p) = false.
Proof.
  intro H. apply (combine_seq_entry _ s 0) in H.
  destruct H as [_ [Hn Hf]]. rewrite Nat.sub_0_r in Hn.
  split; [exact Hn|]. now apply negb_true_iff in Hf.
Qed.

(** X9. A NaN return is never flagged: [detect_jumps] leaves it out of the
    jump series (entry 0.0) and keeps it, still NaN, in the diffusion
    series. *)
Theorem nan_return_is_never_flagged d returns use_robust is_jump jump_returns
  diffusion_returns t r :
  detect_jumps d returns use_robust
    = Some (is_jump, jump_returns, diffusion_returns) ->
  nth_error returns t = Some r ->
  is_nan r = true ->
  nth_error is_jump t = Some false /\
  nth_error jump_returns t = Some zero /\
  nth_error diffusion_returns t = Some r.
Proof.
  intros H Hr Hnan.
  assert (Hflag : nth_error is_jump t = Some false).
  { revert H. unfold detect_jumps.
    destruct (length returns <? min_observations d).
    - intros [= <- _ _]. now rewrite nth_error_map, Hr.
    - destruct (window d <? 5); [discriminate|].
      intros [= <- _ _].
      assert (Ht : t < length returns) by (apply nth_error_Some; congruence).
      unfold reindex. rewrite nth_error_map_seq by exact Ht.
      destruct (find _ _) as [q|] eqn:Hf; [|reflexivity].
      exfalso. apply find_some in Hf. destruct Hf as [Hin Hq].
      apply Nat.eqb_eq in Hq.
      destruct q as [t' b]. simpl in Hq. subst t'.
      apply in_combine_l in Hin. apply in_map_iff in Hin.
      destruct Hin as [p [Hp Hin]].
      apply dropna_entry in Hin. destruct Hin as [Hn Hnn].
      rewrite Hp, Hr in Hn. injection Hn as Hn. subst r. congruence. }
  destruct (detect_jumps_split _ _ _ _ _ _ H) as [-> ->].
  split; [exact Hflag|].
  split.
  - exact (nth_error_map2 _ _ _ _ _ _ Hflag Hr).
  - exact (nth_error_map2 _ _ _ _ _ _ Hflag Hr).
Qed.

Lemma nan_return_is_never_flagged_witness :
  nth_error [false; false] 1 = Some false /\
  nth_error [zero; zero] 1 = Some zero /\
  nth_error [one; nan] 1 = Some nan.
Proof.
  apply (nan_return_is_never_flagged (JumpDetector.mk c3 5 1) [one; nan]
           true [false; false] [zero; zero] [one; nan] 1 nan);
    vm_compute; reflexivity.
Defined.

Lemma find_flag_mono (f1 f2 : float -> bool) (keys : list nat) zs t :
  (forall z, f2 z = true -> f1 z = true) ->
  forall q2,
    find (fun q : nat * bool => Nat.eqb (fst q) t) (combine keys (map f2 zs))
      = Some q2 ->
    snd q2 = true ->
    exists q1,
      find (fun q : nat * bool => Nat.eqb (fst q) t)
        (combine keys (map f1 zs)) = Some q1 /\
      snd q1 = true.
Proof.
  intro Hf. revert zs.
  induction keys as [|k keys IH]; intros [|z zs] q2; simpl; try discriminate.
  destruct (Nat.eqb k t).
  - intros [= <-] H2. simpl in H2. eexists. split; [reflexivity|].
    simpl. now apply Hf.
  - apply IH.
Qed.

(** X10. Raising the threshold can only remove flags: with the same window
    and [min_observations], every timestamp that [detect_jumps] flags under
    the higher threshold is flagged under the lower one. *)
Theorem higher_threshold_flags_fewer d1 d2 returns use_robust is_jump1 jr1
  dr1 is_jump2 jr2 dr2 t :
  window d1 = window d2 ->
  min_observations d1 = min_observations d2 ->
  leb (threshold d1) (threshold d2) = true ->
  detect_jumps d1 returns use_robust = Some (is_jump1, jr1, dr1) ->
  detect_jumps d2 returns use_robust = Some (is_jump2, jr2, dr2) ->
  nth_error is_jump2 t = Some true ->
  nth_error is_jump1 t = Some true.
Proof.
  destruct d1 as [thr1 w1 m1], d2 as [thr2 w2 m2].
  cbn [window min_observations threshold].
  intros <- <- Hthr. unfold detect_jumps.
  cbn [window min_observations threshold].
  destruct (length returns <? m1).
  { intros _ [= <- _ _]. rewrite nth_error_map.
    destruct (nth_error returns t); discriminate. }
  destruct (w1 <? 5); [discriminate|].
  intros [= <- _ _] [= <- _ _] H2.
  assert (Ht : t < length returns).
  { rewrite <- (reindex_length
                  (combine (map fst (dropna returns))
                     (map (fun z => ltb thr2 (abs z))
                        (z_scores (JumpDetector.mk thr2 w1 m1) use_robust
                           (map snd (dropna returns)))))
                  (length returns) false).
    apply nth_error_Some. congruence. }
  unfold reindex in *. rewrite nth_error_map_seq in * by exact Ht.
  destruct (find _ _) as [q2|] eqn:Hf2 in H2; [|discriminate].
  injection H2 as H2.
  assert (Hmono : forall z, ltb thr2 (abs z) = true ->
                            ltb thr1 (abs z) = true).
  { intros z Hz. exact (leb_ltb_trans _ _ _ Hthr Hz). }
  destruct (find_flag_mono (fun z => ltb thr1 (abs z))
              (fun z => ltb thr2 (abs z)) _ _ t Hmono q2 Hf2 H2)
    as [q1 [Hf1 H1]].
  change (z_scores (JumpDetector.mk thr1 w1 m1)) with
    (z_scores (JumpDetector.mk thr2 w1 m1)).
  now rewrite Hf1, H1.
Qed.

Lemma higher_threshold_flags_fewer_witness :
  nth_error (repeat false 29 ++ [true]) 29 = Some true.
Proof.
  apply (higher_threshold_flags_fewer Samples.detector
           (JumpDetector.mk c10 20 30) Samples.quiet_then_spike true
           (repeat false 29 ++ [true]) (repeat zero 29 ++ [one])
           (repeat zero 30)
           (repeat false 29 ++ [true]) (repeat zero 29 ++ [one])
           (repeat zero 30) 29);
    vm_compute; reflexivity.
Defined.

End JumpDetectorMore.

(** ** Regime engine: missing timestamps, warm-up, undefined volatility *)

Module RegimeEngineMore.
Import F64 F64Facts Pandas PandasFacts RegimeEngine RegimeEngineSpec
  RegimeEngineFacts.

Lemma rows_from_nth e ranks rates rows t v :
  rows_from e ranks rates = Some rows ->
  nth_error ranks t = Some v ->
  exists j, nth_error rates t = Some j /\
            nth_error rows t = Some (classify e v j).
Proof.
  revert rates rows t.
  induction ranks as [|v0 ranks IH]; intros rates rows t; simpl.
  - destruct t; discriminate.
  - destruct rates as [|j rates]; [discriminate|].
    destruct (rows_from e ranks rates) as [rest|] eqn:Hrest; [|discriminate].
    intros [= <-]. destruct t as [|t]; simpl.
    + intros [= ->]. now exists j.
    + intro H. exact (IH _ _ _ Hrest H).
Qed.

Lemma rolling_nth stat w minp xs t :
  t < length xs ->
  nth_error (rolling stat w minp xs) t
  = Some (let obs := observations (window_at w (prep_values xs) t) in
          if length obs <? minp then nan else stat obs).
Proof. intro H. unfold rolling. now rewrite nth_error_map_seq. Qed.

Lemma window_at_length {A} w (xs : list A) t :
  length (window_at w xs t) <= Nat.min (t + 1) w.
Proof.
  unfold window_at. rewrite length_skipn, length_firstn. lia.
Qed.

Lemma filter_drops {A} (f : A -> bool) l x :
  In x l -> f x = false -> length (filter f l) < length l.
Proof.
  induction l as [|y l IH]; simpl; [easy|].
  intros [->|Hin] Hf.
  - rewrite Hf. pose proof (filter_length_le f l). lia.
  - specialize (IH Hin Hf). destruct (f y); simpl; lia.
Qed.

(** The count of a running mean never exceeds the number of positions
    read. *)
Lemma rolling_mean_warmup w minp values : forall k a st j r,
  m_nobs st <= a ->
  nth_error (online_from mean_state mean_fresh add_mean remove_mean
               (calc_mean minp) w values st (seq a k)) j = Some r ->
  a + j + 1 < minp ->
  r = nan.
Proof.
  induction k as [|k IH]; intros a st j r Hst; simpl.
  - destruct j; discriminate.
  - set (st' := if (a =? 0) || (w <=? 1)
                then add_mean (mean_fresh (nth a values nan))
                       (nth a values nan)
                else add_mean
                       (if w <=? a
                        then remove_mean st (nth (a - w) values nan)
                        else st) (nth a values nan)).
    assert (Hst' : m_nobs st' <= S a).
    { unfold st'.
      assert (Hadd : forall s v, m_nobs (add_mean s v) <= m_nobs s + 1).
      { intros s v. unfold add_mean. destruct (is_nan v); simpl; lia. }
      assert (Hrem : forall s v, m_nobs (remove_mean s v) <= m_nobs s).
      { intros s v. unfold remove_mean. destruct (is_nan v); simpl; lia. }
      destruct ((a =? 0) || (w <=? 1)).
      - pose proof (Hadd (mean_fresh (nth a values nan)) (nth a values nan)).
        simpl in *. lia.
      - destruct (w <=? a).
        + pose proof (Hadd (remove_mean st (nth (a - w) values nan))
                        (nth a values nan)).
          pose proof (Hrem st (nth (a - w) values nan)). lia.
        + pose proof (Hadd st (nth a values nan)). lia. }
    destruct j as [|j]; simpl.
    + intros [= <-] Hj. unfold calc_mean.
      destruct (Nat.leb_spec minp (m_nobs st')); [lia | reflexivity].
    + intros Hn Hj. apply (IH (S a) st' j r Hst' Hn). lia.
Qed.

(** A rank window of no timestamp is refused on a non-empty series. *)
Example empty_rank_window_is_refused :
  detect_regimes (RegimeEngine.mk 0 2 c0_8 c0_3 c0_05) [one] [false] = None /\
  detect_regimes (RegimeEngine.mk 0 2 c0_8 c0_3 c0_05) [] [] = Some [].
Proof. split; reflexivity. Qed.

(** X12. Warm-up: a timestamp with fewer than [vol_window] entries of
    volatility, or fewer than [jump_window] flags, up to and including it
    gets the row (0, 1, 0), pure sideways. *)
Theorem warmup_rows_are_sideways e volatility is_jump rows t :
  detect_regimes e volatility is_jump = Some rows ->
  t < length volatility ->
  t + 1 < vol_window e \/ t + 1 < jump_window e ->
  nth_error rows t = Some pure_sideways.
Proof.
  intros H Ht Hw. apply detect_regimes_rows in H.
  pose proof (rolling_nth rank_pct_last (vol_window e) (vol_window e)
                volatility t Ht) as Hv.
  destruct (rows_from_nth _ _ _ _ _ _ H Hv) as [j [Hj ->]].
  f_equal. destruct Hw as [Hw|Hw].
  - cbv zeta.
    pose proof (filter_length_le (fun x => negb (is_nan x))
                  (window_at (vol_window e) (prep_values volatility) t)).
    pose proof (window_at_length (vol_window e) (prep_values volatility) t).
    unfold observations.
    destruct (Nat.ltb_spec
                (length (filter (fun x => negb (is_nan x))
                           (window_at (vol_window e)
                              (prep_values volatility) t)))
                (vol_window e)); [reflexivity | lia].
  - assert (Ej : j = nan).
    { unfold jump_rate, rolling_mean, online in Hj.
      destruct (jump_window e =? 0) eqn:E0.
      - apply Nat.eqb_eq in E0. lia.
      - apply (rolling_mean_warmup _ _ _ _ 0 _ t j) in Hj;
          [exact Hj | simpl; lia | simpl; lia]. }
    subst j. unfold classify.
    change (isfinite nan) with false.
    now rewrite orb_true_r.
Qed.

Lemma warmup_rows_are_sideways_witness :
  nth_error [pure_sideways; pure_sideways; pure_sideways; bull_leaning;
             crisis_leaning] 2 = Some pure_sideways.
Proof.
  apply (warmup_rows_are_sideways Samples.regime_engine
           [c3; two; two; one; c3] [false; false; false; false; false]).
  - vm_compute. reflexivity.
  - simpl. lia.
  - left. simpl. lia.
Defined.

(** X13. A volatility that is NaN or infinite makes every row whose
    trailing window of [vol_window] timestamps contains it pure sideways:
    the rolling rank is undefined there. *)
Theorem undefined_volatility_gives_sideways e volatility is_jump rows t s v :
  detect_regimes e volatility is_jump = Some rows ->
  t < length volatility ->
  t + 1 - vol_window e <= s <= t ->
  nth_error volatility s = Some v ->
  isfinite v = false ->
  nth_error rows t = Some pure_sideways.
Proof.
  intros H Ht Hs Hv Hfin. apply detect_regimes_rows in H.
  pose proof (rolling_nth rank_pct_last (vol_window e) (vol_window e)
                volatility t Ht) as Hr.
  destruct (rows_from_nth _ _ _ _ _ _ H Hr) as [j [Hj ->]].
  f_equal. cbv zeta.
  set (win := window_at (vol_window e) (prep_values volatility) t).
  assert (Hin : In nan win).
  { apply (nth_error_In win (s - (t + 1 - vol_window e))).
    unfold win, window_at.
    rewrite nth_error_skipn, nth_error_firstn.
    replace (t + 1 - vol_window e + (s - (t + 1 - vol_window e)))
      with s by lia.
    destruct (Nat.ltb_spec s (t + 1)); [|lia].
    unfold prep_values. now rewrite nth_error_map, Hv; simpl; rewrite Hfin. }
  pose proof (filter_drops (fun x => negb (is_nan x)) win nan Hin
                eq_refl) as Hlt.
  pose proof (window_at_length (vol_window e) (prep_values volatility) t)
    as Hlen.
  fold win in Hlen. unfold observations.
  destruct (Nat.ltb_spec (length (filter (fun x => negb (is_nan x)) win))
              (vol_window e)); [reflexivity | lia].
Qed.

Lemma undefined_volatility_gives_sideways_witness :
  nth_error [pure_sideways; pure_sideways; pure_sideways; pure_sideways;
             pure_sideways; bull_leaning] 4 = Some pure_sideways.
Proof.
  apply (undefined_volatility_gives_sideways Samples.regime_engine
           [c3; nan; c3; two; two; one]
           [false; false; false; false; false; false] _ 4 1 nan).
  - vm_compute. reflexivity.
  - simpl. lia.
  - simpl. lia.
  - reflexivity.
  - reflexivity.
Defined.

End RegimeEngineMore.

(** ** Mispricing engine *)

Module MispricingEngineFacts.
Import F64 F64Facts F64Order Pandas MispricingEngine Decision.

Lemma dead_zone_nan self : dead_zone self nan = nan.
Proof. reflexivity. Qed.

Lemma div_by_zero_not_finite x z :
  eqb z zero = true -> isfinite (div x z) = false.
Proof.
  destruct z as [s|s| |s m e];
    [ | now destruct s | discriminate | now destruct s].
  intros _. now destruct x as [sx|sx| |sx mx ex].
Qed.

Lemma single_quote self market model :
  leb (ema_alpha self) zero = false ->
  ltb one (ema_alpha self) = false ->
  compute_mispricing self [market] [model]
  = Ok [let raw := div (sub market model) model in
        if isfinite raw then dead_zone self raw else nan].
Proof.
  intros H0 H1. unfold compute_mispricing, ewm_mean. rewrite H0, H1.
  change (aligned div (aligned sub [market] [model]) [model])
    with [div (sub market model) model].
  cbv zeta. cbn [orb prep_values map ewm_run nobs].
  destruct (isfinite (div (sub market model) model)) eqn:Hf.
  - assert (Hn : is_nan (div (sub market model) model) = false)
      by (now destruct (div (sub market model) model)).
    now rewrite Hn.
  - reflexivity.
Qed.

(** X14. For one market quote and one model price, as the decision stage
    calls it, and an [ema_alpha] that pandas accepts, [compute_mispricing]
    returns the relative gap (market - model) / model itself, replaced by
    0.0 when smaller in magnitude than [min_signal_strength] and by NaN when
    it is infinite or NaN: the smoothing has nothing to average.  An
    [ema_alpha] at or below 0 or above 1 raises the [ValueError] of
    [ewm]. *)
Theorem single_quote_mispricing self market model :
  (leb (ema_alpha self) zero = false ->
   ltb one (ema_alpha self) = false ->
   compute_mispricing self [market] [model]
   = Ok [let raw := div (sub market model) model in
         if isfinite raw then dead_zone self raw else nan]) /\
  (leb (ema_alpha self) zero = true \/ ltb one (ema_alpha self) = true ->
   compute_mispricing self [market] [model]
   = Raise (ValueError "alpha must satisfy: 0 < alpha <= 1")).
Proof.
  split; [apply single_quote|].
  intro H. unfold compute_mispricing, ewm_mean.
  destruct H as [-> | ->]; [reflexivity | now rewrite orb_true_r].
Qed.

Lemma single_quote_mispricing_witness :
  compute_mispricing (MispricingEngine.mk c0_3 c0_01) [two] [one] = Ok [one].
Proof.
  destruct (single_quote_mispricing (MispricingEngine.mk c0_3 c0_01)
              two one) as [H _].
  exact (H eq_refl eq_refl).
Defined.

(** X15. A model price of zero cannot lead to a trade: the mispricing of
    the single quote is NaN, whatever the market price, and the verdict on
    a NaN mispricing is REFUSE, whatever the confidence, the position and
    the thresholds. *)
Theorem zero_model_price_is_refused self market model c p crisis_p min_conf
  min_pos allow :
  leb (ema_alpha self) zero = false ->
  ltb one (ema_alpha self) = false ->
  eqb model zero = true ->
  compute_mispricing self [market] [model] = Ok [nan] /\
  final_verdict nan c p crisis_p min_conf min_pos allow = REFUSE.
Proof.
  intros H0 H1 Hz. split.
  - rewrite (single_quote self market model H0 H1). cbv zeta.
    now rewrite (div_by_zero_not_finite _ _ Hz).
  - unfold final_verdict.
    change (ltb nan zero) with false. change (ltb zero nan) with false.
    now destruct (negb _).
Qed.

Lemma zero_model_price_is_refused_witness :
  compute_mispricing (MispricingEngine.mk c0_3 c0_01) [one] [zero] = Ok [nan]
  /\ final_verdict nan c0_7 c0_05 zero c0_5 c0_01 false = REFUSE.
Proof.
  apply (zero_model_price_is_refused (MispricingEngine.mk c0_3 c0_01) one
           zero c0_7 c0_05 zero c0_5 c0_01 false); reflexivity.
Defined.

Lemma map_seq_const {A} (f : nat -> A) c : forall k a,
  (forall i, a <= i < a + k -> f i = c) -> map f (seq a k) = repeat c k.
Proof.
  induction k as [|k IH]; intros a H; [reflexivity|].
  simpl. f_equal; [apply H; lia | apply IH; intros i Hi; apply H; lia].
Qed.

Lemma aligned_nth op xs ys i :
  i < Nat.max (length xs) (length ys) ->
  nth i (aligned op xs ys) nan = op (nth i xs nan) (nth i ys nan).
Proof.
  intro H. unfold aligned. apply nth_error_nth.
  now rewrite nth_error_map_seq.
Qed.

Lemma ewm_run_constant f new_wt c : forall n st,
  is_nan c = false ->
  weighted st = c ->
  1 <= nobs st ->
  ewm_run f new_wt 1 st (repeat c n) = repeat c n.
Proof.
  induction n as [|n IH]; intros st Hc Hw Hn; [reflexivity|].
  cbn [repeat ewm_run]. unfold ewm_step.
  rewrite Hw, Hc, (eqb_refl c Hc). cbn [negb nobs weighted].
  destruct (Nat.leb_spec 1 (nobs st + 1)); [|lia].
  f_equal. apply IH; [exact Hc | reflexivity | simpl; lia].
Qed.

(** X16. Smoothing leaves a constant gap alone: when (market - model) /
    model is the same finite value at every timestamp, every entry of the
    result is that value (0.0 inside the dead zone), with no rounding
    drift. *)
Theorem constant_gap_is_kept self market_price model_price c :
  leb (ema_alpha self) zero = false ->
  ltb one (ema_alpha self) = false ->
  isfinite c = true ->
  length market_price = length model_price ->
  (forall i, i < length model_price ->
     div (sub (nth i market_price nan) (nth i model_price nan))
         (nth i model_price nan) = c) ->
  compute_mispricing self market_price model_price
  = Ok (repeat (dead_zone self c) (length model_price)).
Proof.
  intros H0 H1 Hc Hlen Hraw.
  assert (Hn : is_nan c = false) by (now destruct c).
  assert (Hr : aligned div (aligned sub market_price model_price) model_price
               = repeat c (length model_price)).
  { assert (Hd : length (aligned sub market_price model_price)
                 = length model_price).
    { unfold aligned. rewrite length_map, length_seq, Hlen.
      apply Nat.max_id. }
    unfold aligned at 1. rewrite Hd, Nat.max_id.
    apply map_seq_const. intros i Hi.
    rewrite aligned_nth by (rewrite Hlen, Nat.max_id; lia).
    apply Hraw. lia. }
  unfold compute_mispricing, ewm_mean. rewrite H0, H1, Hr. cbn [orb].
  unfold prep_values. rewrite map_repeat, Hc.
  destruct (length model_price) as [|n]; [reflexivity|].
  cbn [repeat]. rewrite Hn. cbn [negb nobs Nat.leb].
  rewrite ewm_run_constant by (simpl; auto).
  cbn [map]. now rewrite map_repeat.
Qed.

Lemma constant_gap_is_kept_witness :
  compute_mispricing (MispricingEngine.mk c0_3 c0_01) [two; two; two]
    [one; one; one]
  = Ok (repeat (dead_zone (MispricingEngine.mk c0_3 c0_01) one) 3).
Proof.
  apply (constant_gap_is_kept (MispricingEngine.mk c0_3 c0_01)
           [two; two; two] [one; one; one] one);
    try reflexivity.
  intros [|[|[|i]]] Hi; try reflexivity. simpl in Hi. lia.
Defined.

End MispricingEngineFacts.

(** ** Drift engine: the filter *)

Module DriftEstimationFacts.
Import VolatilityEngine DriftEstimation DriftEstimationSpec.
Local Open Scope R_scope.









Section WithIdxmax.

Variable idxmax : probs -> string.





(** With an undefined uncertainty every timestamp leaves it undefined, and
    an update makes the state undefined too. *)
Lemma step_poisoned self volatility rp kf idx ret :
  kf_P kf = None ->
  exists kf',
    step idxmax self volatility rp kf idx ret = Returns kf' /\
    kf_P kf' = None /\
    kf_x kf' = if is_obs ret then None else nmul (Some 1) (kf_x kf).
Proof.
  intro HP. unfold step.
  set (kf0 := update_regime_parameters self kf (regime_at idxmax rp idx)
                (volatility_at self volatility idx)).
  assert (HP0 : kf_P kf0 = None).
  { unfold kf0, update_regime_parameters.
    destruct (adaptive self); cbn [set_R set_Q kf_P]; exact HP. }
  assert (Hx0 : kf_x kf0 = kf_x kf).
  { unfold kf0, update_regime_parameters.
    destruct (adaptive self); reflexivity. }
  assert (HP1 : kf_P (predict kf0) = None).
  { unfold predict. cbn [kf_P]. now rewrite HP0. }
  destruct ret as [z|]; cbn [is_obs].
  - unfold update, inv. rewrite HP1. cbn [nmul nadd].
    eexists. split; [reflexivity|]. cbn [kf_P kf_x]. split.
    + now destruct (nmul (nmul (nsub (Some 1) None) None)
                      (nsub (Some 1) None)).
    + now destruct (kf_x (predict kf0)).
  - eexists. split; [reflexivity|]. split; [exact HP1|].
    unfold predict. cbn [kf_x]. now rewrite Hx0.
Qed.

Lemma run_undefined self volatility rp : forall returns kf idx,
  kf_x kf = None -> kf_P kf = None ->
  exists kf',
    run idxmax self volatility rp kf idx returns
    = Returns (repeat None (length returns), repeat None (length returns),
               kf').
Proof.
  induction returns as [|ret rest IH]; intros kf idx Hx HP.
  - now exists kf.
  - destruct (step_poisoned self volatility rp kf idx ret HP)
      as [kf1 [E1 [HP1 Hx1]]].
    assert (Hx1' : kf_x kf1 = None).
    { rewrite Hx1, Hx. now destruct (is_obs ret). }
    destruct (IH kf1 (S idx) Hx1' HP1) as [kf' E].
    exists kf'. cbn [run]. now rewrite E1, E, Hx1', HP1.
Qed.

Lemma run_single_observation self volatility rp r post x :
  forall pre kf idx,
  kf_x kf = Some x -> kf_P kf = None ->
  observations pre = [] ->
  exists kf',
    run idxmax self volatility rp kf idx (pre ++ Some r :: post)
    = Returns (repeat (Some x) (length pre) ++ repeat None (S (length post)),
               repeat None (length pre + S (length post)), kf').
Proof.
  induction pre as [|ret pre IH]; intros kf idx Hx HP Hpre.
  - destruct (step_poisoned self volatility rp kf idx (Some r) HP)
      as [kf1 [E1 [HP1 Hx1]]].
    cbn [is_obs] in Hx1.
    destruct (run_undefined self volatility rp post kf1 (S idx) Hx1 HP1)
      as [kf' E].
    exists kf'. cbn [app run length repeat Nat.add].
    now rewrite E1, E, Hx1, HP1.
  - destruct ret as [z|]; [discriminate|]. cbn [observations] in Hpre.
    destruct (step_poisoned self volatility rp kf idx None HP)
      as [kf1 [E1 [HP1 Hx1]]].
    cbn [is_obs] in Hx1. rewrite Hx in Hx1. cbn [nmul] in Hx1.
    rewrite Rmult_1_l in Hx1.
    destruct (IH kf1 (S idx) Hx1 HP1 Hpre) as [kf' E].
    exists kf'. cbn [app run length repeat Nat.add].
    now rewrite E1, E, Hx1, HP1.
Qed.

Lemma observations_app xs ys :
  observations (xs ++ ys) = observations xs ++ observations ys.
Proof.
  induction xs as [|[x|] xs IH]; simpl; [reflexivity | now f_equal | exact IH].
Qed.

Lemma observations_repeat_nan n : observations (repeat None n) = [].
Proof. induction n; [reflexivity | exact IHn]. Qed.

Lemma mean_singleton r : mean [r] = r.
Proof. unfold mean, DriftEstimation.sum. simpl. field. Qed.

(** The filter [estimate_drift] starts from when the series holds one
    number. *)
Lemma estimate_drift_single self kf pre r post volatility rp :
  observations pre = [] -> observations post = [] ->
  exists kf',
    run idxmax self volatility rp
      (let '(mu0, P0) :=
         if (0 <? length (firstn 20 (observations (pre ++ Some r :: post))))%nat
         then (Some (mean (firstn 20 (observations (pre ++ Some r :: post)))),
               py_max (var (firstn 20 (observations (pre ++ Some r :: post))))
                 (Some (min_obs_variance self)))
         else (Some (initial_drift self), Some (1 / 10000)) in
       mk_kf mu0 P0 (kf_Q kf) (kf_R kf)) 0 (pre ++ Some r :: post)
    = Returns (repeat (Some r) (length pre) ++ repeat None (S (length post)),
               repeat None (length pre + S (length post)), kf').
Proof.
  intros Hpre Hpost.
  rewrite observations_app. cbn [observations]. rewrite Hpre, Hpost.
  cbn [app firstn length Nat.ltb Nat.leb var py_max].
  apply run_single_observation; [|reflexivity|exact Hpre].
  cbn [kf_x]. now rewrite mean_singleton.
Qed.

(** X17. [estimate_drift] raises [IndexError] (from the line that logs the
    current drift) on an empty return series, and on a series whose first
    entry is its only number: the warm-up variance of one number is NaN,
    Python's [max(nan, min_obs_variance)] is NaN, and the first update
    turns the whole drift into NaN. *)
Theorem estimate_drift_index_error self kf returns volatility rp :
  returns = [] \/
  (exists r rest, returns = Some r :: rest /\ observations rest = []) ->
  estimate_drift idxmax self kf returns volatility rp = Raises IndexError.
Proof.
  intros [-> | [r [rest [-> Hrest]]]]; [reflexivity|].
  destruct (estimate_drift_single self kf [] r rest volatility rp eq_refl
              Hrest) as [kf' E].
  unfold estimate_drift.
  cbn [app] in E.
  destruct (if (0 <? length (firstn 20 (observations (Some r :: rest))))%nat
            then _ else _) as [mu0 P0].
  rewrite E. cbn [length repeat app].
  change (None :: repeat None (length rest))
    with (repeat (@None R) (S (length rest))).
  now rewrite observations_repeat_nan.
Qed.

(** X18. One number in the return series, after at least one NaN: the call
    returns, the drift is that number up to the observation and NaN from
    it on, and the uncertainty is NaN at every timestamp. *)
Theorem single_observation_poisons self kf pre r post volatility rp :
  pre <> [] -> observations pre = [] -> observations post = [] ->
  exists kf',
    estimate_drift idxmax self kf (pre ++ Some r :: post) volatility rp
    = Returns (repeat (Some r) (length pre) ++ repeat None (S (length post)),
               repeat None (length pre + S (length post)), kf').
Proof.
  intros Hne Hpre Hpost.
  destruct (estimate_drift_single self kf pre r post volatility rp Hpre
              Hpost) as [kf' E].
  exists kf'. unfold estimate_drift.
  destruct (if (0 <? length (firstn 20
                               (observations (pre ++ Some r :: post))))%nat
            then _ else _) as [mu0 P0].
  rewrite E.
  destruct pre as [|p0 pre']; [contradiction|]. reflexivity.
Qed.



Lemma run_without_observation self volatility x :
  forall returns kf idx p,
  observations returns = [] ->
  kf_x kf = Some x -> kf_P kf = Some p ->
  exists kf',
    run idxmax self volatility None kf idx returns
    = Returns (repeat (Some x) (length returns),
               map (fun t => Some (p + INR (t + 1)
                                       * (state_noise_factor self * 3)))
                   (seq 0 (length returns)),
               kf').
Proof.
  induction returns as [|ret rest IH]; intros kf idx p Hobs Hx HP.
  - now exists kf.
  - destruct ret as [z|]; [discriminate|]. cbn [observations] in Hobs.
    cbn [run]. unfold step. cbn [is_obs regime_at].
    set (kf1 := predict _).
    assert (Hx1 : kf_x kf1 = Some x).
    { unfold kf1, predict, update_regime_parameters.
      destruct (adaptive self); cbn; rewrite Hx; cbn;
        now rewrite Rmult_1_l. }
    assert (HP1 : kf_P kf1 = Some (p + INR 1 * (state_noise_factor self * 3))).
    { unfold kf1, predict, update_regime_parameters.
      destruct (adaptive self); cbn; rewrite HP; cbn; f_equal; ring. }
    destruct (IH kf1 (S idx) _ Hobs Hx1 HP1) as [kf' E].
    exists kf'. rewrite E, Hx1, HP1. cbn [length repeat].
    assert (Hm :
      Some (p + INR 1 * (state_noise_factor self * 3))
        :: map (fun t => Some (p + INR 1 * (state_noise_factor self * 3)
                               + INR (t + 1) * (state_noise_factor self * 3)))
             (seq 0 (length rest))
      = map (fun t => Some (p + INR (t + 1) * (state_noise_factor self * 3)))
          (seq 0 (S (length rest)))).
    { cbn [seq map]. f_equal.
      rewrite <- seq_shift, map_map. apply map_ext. intro t.
      f_equal. rewrite !plus_INR, !S_INR. change (INR 0) with 0. ring. }
    exact (f_equal
             (fun b => Returns (Some x :: repeat (Some x) (length rest), b,
                                kf')) Hm).
Qed.

(** X21. Without regime probabilities and without a single return that is
    a number, the filter only predicts: on a non-empty series the drift is
    [initial_drift] at every timestamp and the uncertainty grows from
    0.0001 by three times [state_noise_factor] per timestamp (the sideways
    noise). *)
Theorem all_nan_returns_only_predict self kf returns volatility :
  returns <> [] ->
  observations returns = [] ->
  exists kf',
    estimate_drift idxmax self kf returns volatility None
    = Returns (repeat (Some (initial_drift self)) (length returns),
               map (fun t => Some (1 / 10000
                                   + INR (t + 1)
                                     * (state_noise_factor self * 3)))
                   (seq 0 (length returns)),
               kf').
Proof.
  intros Hne Hobs. unfold estimate_drift. rewrite Hobs.
  cbn [firstn length Nat.ltb Nat.leb].
  destruct (run_without_observation self volatility (initial_drift self)
              returns (mk_kf (Some (initial_drift self)) (Some (1 / 10000))
                         (kf_Q kf) (kf_R kf)) 0%nat (1 / 10000) Hobs
              eq_refl eq_refl) as [kf' ->].
  exists kf'.
  destruct returns as [|r0 rest]; [contradiction|]. reflexivity.
Qed.

End WithIdxmax.

Lemma all_nan_returns_only_predict_witness :
  exists kf',
    estimate_drift no_idxmax sample_engine new_filter [None; None]
      [Some (2 / 100)] None
    = Returns (repeat (Some (initial_drift sample_engine))
                 (length [@None R; None]),
               map (fun t => Some (1 / 10000
                                   + INR (t + 1)
                                     * (state_noise_factor sample_engine * 3)))
                   (seq 0 (length [@None R; None])),
               kf').
Proof.
  apply (all_nan_returns_only_predict no_idxmax sample_engine new_filter
           [None; None] [Some (2 / 100)]).
  - discriminate.
  - reflexivity.
Defined.

Lemma estimate_drift_index_error_witness :
  estimate_drift no_idxmax sample_engine new_filter [Some (1 / 100); None]
    [Some (2 / 100); Some (2 / 100)] None
  = Raises IndexError.
Proof.
  apply (estimate_drift_index_error no_idxmax sample_engine new_filter
           [Some (1 / 100); None] [Some (2 / 100); Some (2 / 100)] None).
  right. exists (1 / 100), [None]. split; reflexivity.
Defined.

Lemma single_observation_poisons_witness :
  exists kf',
    estimate_drift no_idxmax sample_engine new_filter
      ([None] ++ Some (1 / 100) :: [None]) [] None
    = Returns (repeat (Some (1 / 100)) (length [@None R])
                 ++ repeat None (S (length [@None R])),
               repeat None (length [@None R] + S (length [@None R])), kf').
Proof.
  apply (single_observation_poisons no_idxmax sample_engine new_filter
           [None] (1 / 100) [None] [] None).
  - discriminate.
  - reflexivity.
  - reflexivity.
Defined.



End DriftEstimationFacts.

(** The bound of X20 read on binary64: the warm-up mean of three returns of
    0.1 is 0.10000000000000002, one unit in the last place above them. *)
Module DriftRounding.
Import F64 Pandas VolatilityEngine64Spec.

Example warmup_mean_rounds_above :
  Pandas.mean [c0_1; c0_1; c0_1] = S754_finite false 7205759403792795 (-56) /\
  ltb c0_1 (Pandas.mean [c0_1; c0_1; c0_1]) = true.
Proof. split; vm_compute; reflexivity. Qed.

End DriftRounding.

(** ** Pricing: scale, and the truncated jump series *)

Module PricingEngineMore.
Import PricingEngine PricingEngineSpec.
Local Open Scope R_scope.

Lemma black_scholes_scales a S K T r sigma :
  0 < a -> 0 < K ->
  black_scholes_call (a * S) (a * K) T r sigma
  = a * black_scholes_call S K T r sigma.
Proof.
  intros Ha HK. unfold black_scholes_call.
  assert (Hmax : Rmax (a * S - a * K) 0 = a * Rmax (S - K) 0).
  { replace (a * S - a * K) with (a * (S - K)) by ring.
    replace 0 with (a * 0) at 1 by ring.
    apply RmaxRmult. lra. }
  destruct (Rle_dec T 0); [exact Hmax|].
  destruct (Rle_dec sigma 0); [exact Hmax|].
  cbv zeta.
  replace (a * S / (a * K)) with (S / K) by (field; lra).
  ring.
Qed.

Lemma fold_scales (f g : nat -> R) a l : forall acc,
  (forall k, f k = a * g k) ->
  fold_left (fun price k => price + f k) l (a * acc)
  = a * fold_left (fun price k => price + g k) l acc.
Proof.
  induction l as [|k l IH]; intros acc H; simpl; [reflexivity|].
  rewrite H. replace (a * acc + a * g k) with (a * (acc + g k)) by ring.
  now apply IH.
Qed.

(** X22. Prices scale with the unit of account: for positive spot, strike
    and expiry, multiplying spot and strike by a positive factor multiplies
    the Black-Scholes and the Merton price by that factor. *)
Theorem prices_scale_with_spot_and_strike a S K T r sigma lam mu_j sigma_j
  n_terms :
  0 < a -> 0 < S -> 0 < K -> 0 < T ->
  black_scholes_call (a * S) (a * K) T r sigma
    = a * black_scholes_call S K T r sigma /\
  merton_call (a * S) (a * K) T r sigma lam mu_j sigma_j n_terms
    = a * merton_call S K T r sigma lam mu_j sigma_j n_terms.
Proof.
  intros Ha _ HK _. split; [now apply black_scholes_scales|].
  unfold merton_call.
  replace 0 with (a * 0) at 1 by ring.
  apply fold_scales. intro k. unfold merton_term. cbv zeta.
  rewrite black_scholes_scales by assumption. ring.
Qed.

Lemma prices_scale_with_spot_and_strike_witness :
  black_scholes_call (100 * 1) (100 * 1) (30 / 252) (5 / 100) (2 / 10)
    = 100 * black_scholes_call 1 1 (30 / 252) (5 / 100) (2 / 10) /\
  merton_call (100 * 1) (100 * 1) (30 / 252) (5 / 100) (2 / 10) (1 / 50)
      (- (5 / 100)) (1 / 10) 20
    = 100 * merton_call 1 1 (30 / 252) (5 / 100) (2 / 10) (1 / 50)
              (- (5 / 100)) (1 / 10) 20.
Proof.
  apply (prices_scale_with_spot_and_strike 100 1 1 (30 / 252) (5 / 100)
           (2 / 10) (1 / 50) (- (5 / 100)) (1 / 10) 20); lra.
Defined.










End PricingEngineMore.
